(** * EBK registration ledger: the signed, replay-protected write path

    A shallow embedding of [server.js]: the freshness and signature gate
    shared by the three routes, the conflict-tolerant insert into [births],
    the append-only [transfers] and [audit] tables and the [verify] lookup.

    Scope of the embedding.  Request bodies are JSON objects whose fields
    are scalars; numbers are the integer-valued ones the protocol carries
    (unix seconds, generation and tier counts) together with [NaN], which
    [Number] produces from text that is not numeric.  [Int z] stands for
    the double whose value is the integer [z].  Strings are byte strings
    (the UTF-8 form that the digest and the database consume).

    A route is a computation in a state-and-exception monad.  The state is
    the database together with a log of every statement sent to the pool;
    the clock and the availability of the database are oracles supplied by
    the environment.  The shared secret and the runtime's conversions
    between text and numbers (StringToNumber and Number::toString) are
    parameters of the routes: nothing is assumed of the first, and of the
    second only that it never yields the empty string and prints the
    integers up to 2^53 digit by digit. *)

From Stdlib Require Import ZArith Lia List String Ascii DecimalString DecimalZ DecimalPos.
From stdpp Require Import base option list strings gmap.

Local Open Scope string_scope.
Local Open Scope list_scope.
Local Open Scope Z_scope.

(** ** The digest: [crypto.createHash("md5").update(s).digest("hex")] *)

Module MD5.

Definition w32 (x : Z) : Z := x mod 2 ^ 32.

Definition rotl (x c : Z) : Z :=
  w32 (Z.lor (Z.shiftl x c) (Z.shiftr x (32 - c))).

Definition shifts : list Z :=
  [7; 12; 17; 22; 7; 12; 17; 22; 7; 12; 17; 22; 7; 12; 17; 22;
   5;  9; 14; 20; 5;  9; 14; 20; 5;  9; 14; 20; 5;  9; 14; 20;
   4; 11; 16; 23; 4; 11; 16; 23; 4; 11; 16; 23; 4; 11; 16; 23;
   6; 10; 15; 21; 6; 10; 15; 21; 6; 10; 15; 21; 6; 10; 15; 21].

(** [floor (2^32 * |sin (i + 1)|)] for [i] from 0 to 63. *)
Definition sines : list Z :=
  [ 0xd76aa478; 0xe8c7b756; 0x242070db; 0xc1bdceee;
    0xf57c0faf; 0x4787c62a; 0xa8304613; 0xfd469501;
    0x698098d8; 0x8b44f7af; 0xffff5bb1; 0x895cd7be;
    0x6b901122; 0xfd987193; 0xa679438e; 0x49b40821;
    0xf61e2562; 0xc040b340; 0x265e5a51; 0xe9b6c7aa;
    0xd62f105d; 0x02441453; 0xd8a1e681; 0xe7d3fbc8;
    0x21e1cde6; 0xc33707d6; 0xf4d50d87; 0x455a14ed;
    0xa9e3e905; 0xfcefa3f8; 0x676f02d9; 0x8d2a4c8a;
    0xfffa3942; 0x8771f681; 0x6d9d6122; 0xfde5380c;
    0xa4beea44; 0x4bdecfa9; 0xf6bb4b60; 0xbebfbc70;
    0x289b7ec6; 0xeaa127fa; 0xd4ef3085; 0x04881d05;
    0xd9d4d039; 0xe6db99e5; 0x1fa27cf8; 0xc4ac5665;
    0xf4292244; 0x432aff97; 0xab9423a7; 0xfc93a039;
    0x655b59c3; 0x8f0ccc92; 0xffeff47d; 0x85845dd1;
    0x6fa87e4f; 0xfe2ce6e0; 0xa3014314; 0x4e0811a1;
    0xf7537e82; 0xbd3af235; 0x2ad7d2bb; 0xeb86d391 ].

Definition bytes_of_string (s : string) : list Z :=
  map (fun c => Z.of_N (N_of_ascii c)) (list_ascii_of_string s).

(** Little-endian bytes of [x], [n] of them. *)
Fixpoint le_bytes (n : nat) (x : Z) : list Z :=
  match n with
  | O => []
  | S n' => x mod 256 :: le_bytes n' (x / 256)
  end.

Fixpoint le_word (bs : list Z) : Z :=
  match bs with
  | [] => 0
  | b :: bs' => b + 256 * le_word bs'
  end.

(** The message, a single 1 bit, zeros up to 56 modulo 64, then the bit
    length on 8 bytes. *)
Definition pad (msg : list Z) : list Z :=
  let len := Z.of_nat (length msg) in
  let zeros := Z.to_nat ((55 - len) mod 64) in
  msg ++ 0x80 :: repeat 0 zeros ++ le_bytes 8 ((8 * len) mod 2 ^ 64).

Fixpoint chunks (fuel : nat) (n : nat) (l : list Z) : list (list Z) :=
  match fuel, l with
  | O, _ | _, [] => []
  | S fuel', _ => take n l :: chunks fuel' n (drop n l)
  end.

Definition words (block : list Z) : list Z :=
  map le_word (chunks 16 4 block).

Record state := State { sa : Z; sb : Z; sc : Z; sd : Z }.

Definition init : state :=
  State 0x67452301 0xefcdab89 0x98badcfe 0x10325476.

Definition lnot32 (x : Z) : Z := Z.lxor x 0xffffffff.

Definition step (m : list Z) (st : state) (i : Z) : state :=
  let '(State a b c d) := st in
  let '(f, g) :=
    if i <? 16 then (Z.lor (Z.land b c) (Z.land (lnot32 b) d), i)
    else if i <? 32 then (Z.lor (Z.land d b) (Z.land (lnot32 d) c), (5 * i + 1) mod 16)
    else if i <? 48 then (Z.lxor (Z.lxor b c) d, (3 * i + 5) mod 16)
    else (Z.lxor c (Z.lor b (lnot32 d)), (7 * i) mod 16) in
  let idx := Z.to_nat i in
  let f' := w32 (f + a + nth idx sines 0 + nth (Z.to_nat g) m 0) in
  State d (w32 (b + rotl f' (nth idx shifts 0))) b c.

Definition rounds : list Z := map Z.of_nat (seq 0 64).

Definition compress (st : state) (block : list Z) : state :=
  let '(State a b c d) := fold_left (step (words block)) rounds st in
  State (w32 (sa st + a)) (w32 (sb st + b)) (w32 (sc st + c)) (w32 (sd st + d)).

Definition hex_digit (n : Z) : ascii :=
  nth (Z.to_nat n) (list_ascii_of_string "0123456789abcdef") "0"%char.

Definition hex_byte (b : Z) : string :=
  String (hex_digit (b / 16)) (String (hex_digit (b mod 16)) EmptyString).

Definition hex (bs : list Z) : string :=
  fold_right (fun b acc => hex_byte b +:+ acc) "" bs.

Definition digest (msg : list Z) : list Z :=
  let padded := pad msg in
  let st := fold_left compress (chunks (length padded) 64 padded) init in
  le_bytes 4 (sa st) ++ le_bytes 4 (sb st) ++ le_bytes 4 (sc st) ++ le_bytes 4 (sd st).

End MD5.

Definition md5 (s : string) : string :=
  MD5.hex (MD5.digest (MD5.bytes_of_string s)).

(** ** JavaScript values and the coercions the routes rely on *)

Inductive num := Int (z : Z) | NaN.

Inductive value :=
| VUndefined
| VNull
| VBool (b : bool)
| VNum (n : num)
| VStr (s : string).

#[global] Instance num_eq_dec : EqDecision num.
Proof. solve_decision. Defined.

#[global] Instance value_eq_dec : EqDecision value.
Proof. solve_decision. Defined.

(** A parsed JSON object; [b.[k]] is property access, [undefined] when the
    key is absent. *)
Abbreviation body := (gmap string value).

Definition prop (b : body) (k : string) : value := default VUndefined (b !! k).

Notation "b .[ k ]" := (prop b k) (at level 1, left associativity, format "b .[ k ]").

(** ToBoolean. *)
Definition truthy (v : value) : bool :=
  match v with
  | VUndefined | VNull => false
  | VBool b => b
  | VNum (Int z) => negb (z =? 0)
  | VNum NaN => false
  | VStr s => negb (String.eqb s "")
  end.

(** [a || b]. *)
Definition or_else (a b : value) : value := if truthy a then a else b.

Declare Scope js_scope.
Delimit Scope js_scope with js.
Infix "||" := or_else (at level 50, left associativity) : js_scope.

(** The decimal digits of an integer, with a minus sign when negative. *)
Definition decimal_digits (z : Z) : string := NilZero.string_of_int (Z.to_int z).

(** Number::toString, the runtime's rendering of a number.  It is taken as
    a parameter together with what the routes rely on: the rendering is
    never empty, and an integer up to 2^53 in absolute value is rendered by
    its decimal digits.  Beyond, the runtime prints the shortest digits
    that read back as the same double, and an exponent from 1e21 on. *)
Record Rendering := mkRendering {
  render :> num -> string;
  render_nonempty : forall n, render n <> "";
  render_safe : forall z, Z.abs z <= 2 ^ 53 -> render (Int z) = decimal_digits z
}.

Fixpoint concat_sep (sep : string) (l : list string) : string :=
  match l with
  | [] => ""
  | [s] => s
  | s :: l' => s +:+ sep +:+ concat_sep sep l'
  end.

Section Coercions.

Variable NumberToString : Rendering.

(** [String(v)] and the [toString] of template literals. *)
Definition ToString (v : value) : string :=
  match v with
  | VUndefined => "undefined"
  | VNull => "null"
  | VBool true => "true"
  | VBool false => "false"
  | VNum n => NumberToString n
  | VStr s => s
  end.

(** One element as [Array.prototype.join] renders it: [undefined] and
    [null] give the empty string. *)
Definition join_elem (v : value) : string :=
  match v with
  | VUndefined | VNull => ""
  | _ => ToString v
  end.

Definition join (sep : string) (l : list value) : string :=
  concat_sep sep (map join_elem l).

End Coercions.

(** [a !== b] on primitives. *)
Definition strict_neq (a b : value) : bool :=
  match a, b with
  | VNum NaN, _ | _, VNum NaN => true
  | _, _ => negb (bool_decide (a = b))
  end.

(** [a - b].  On integer-valued doubles the difference is exact up to
    2^53 and rounded beyond, which leaves the comparison with 300 that
    [enforceFresh] makes unchanged. *)
Definition num_sub (a b : num) : num :=
  match a, b with
  | Int x, Int y => Int (x - y)
  | _, _ => NaN
  end.

(** [Math.abs]. *)
Definition Math_abs (a : num) : num :=
  match a with
  | Int x => Int (Z.abs x)
  | NaN => NaN
  end.

(** [a <= b]: false as soon as one side is [NaN]. *)
Definition num_le (a b : num) : bool :=
  match a, b with
  | Int x, Int y => x <=? y
  | _, _ => false
  end.

(** ** The store: the three tables of [initSchema] *)

Module births.
Record row := Row {
  id : Z;
  kit_sid : option string;
  p1_sid : option string;
  p2_sid : option string;
  gen : option Z;
  tier : option Z;
  dna_hash : option string;
  cert_id : option string;
  cert_ts : option Z;
  owner_uuid : option string;
  created_at : option Z
}.
End births.

Module transfers.
Record row := Row {
  id : Z;
  sid : option string;
  from_owner : option string;
  to_owner : option string;
  ts : option Z
}.
End transfers.

Module audit.
Record row := Row {
  id : Z;
  event : option string;
  payload : option body;
  ts : option Z
}.
End audit.

(** A table is its rows, oldest first, and the last value its BIGSERIAL
    sequence handed out. *)
Record table (R : Type) := Table { rows : list R; seq_last : Z }.
Arguments Table {R} _ _.
Arguments rows {R} _.
Arguments seq_last {R} _.

Record Db := mkDb {
  births_tbl : table births.row;
  transfers_tbl : table transfers.row;
  audit_tbl : table audit.row
}.

(** The database right after [initSchema] ran on an empty one. *)
Definition initSchema : Db :=
  mkDb (Table [] 0) (Table [] 0) (Table [] 0).

(** The statements the routes send, with their bound parameters. *)
Inductive query :=
| INSERT_births (kit_sid p1_sid p2_sid : value) (gen tier : num)
    (dna_hash cert_id : value) (cert_ts : num) (owner_uuid : value)
    (created_at : num)
| INSERT_transfers (sid from_owner to_owner : value) (ts : num)
| INSERT_audit (event : value) (payload : body) (ts : num)
| SELECT_births_by_cert_id (cert_id : value).

(** The database refuses a text that holds the byte 0. *)
Definition has_nul (s : string) : bool :=
  existsb (Ascii.eqb Ascii.zero) (list_ascii_of_string s).

(** The integer input of the database, on the text a number is sent as: an
    optional minus sign and decimal digits.  Anything else ("NaN", an
    exponent, a fraction) is refused. *)
Definition pg_parse_int (s : string) : option Z :=
  Z.of_int <$> NilZero.int_of_string s.

(** A JSONB payload is refused when a key or a string of it holds the
    character of code 0. *)
Definition jsonb_ok (p : body) : bool :=
  forallb (fun kv => negb (has_nul (fst kv))
                     && match snd kv with
                        | VStr s => negb (has_nul s)
                        | _ => true
                        end)
          (map_to_list p).

Definition has_cert_id (c : string) (r : births.row) : bool :=
  bool_decide (births.cert_id r = Some c).

(** [cert_id TEXT UNIQUE] with [ON CONFLICT (cert_id) DO NOTHING]: a NULL
    never conflicts. *)
Definition conflicts (c : option string) (rs : list births.row) : bool :=
  match c with
  | Some s => existsb (has_cert_id s) rs
  | None => false
  end.

Section Driver.

Variable NumberToString : Rendering.

(** What the driver sends for a parameter: nothing for [null] and
    [undefined] (NULL), the [toString] of anything else. *)
Definition pg_text (v : value) : option string :=
  match v with
  | VUndefined | VNull => None
  | _ => Some (ToString NumberToString v)
  end.

(** A parameter bound to a TEXT column: [None] when the database refuses
    it, [Some None] for NULL. *)
Definition text_param (v : value) : option (option string) :=
  match pg_text v with
  | Some s => if has_nul s then None else Some (Some s)
  | None => Some None
  end.

(** A number bound to an INT ([bits] = 32) or BIGINT ([bits] = 64)
    column: the driver sends its [toString], the database parses that text
    and refuses what is not an integer of the column's range. *)
Definition pg_int (bits : Z) (n : num) : option Z :=
  z ← pg_parse_int (NumberToString n);
  if (- 2 ^ (bits - 1) <=? z) && (z <? 2 ^ (bits - 1)) then Some z else None.

(** The row an INSERT into [births] asks for, when the database accepts
    every parameter. *)
Definition births_row_of (id : Z) (kit p1 p2 : value) (g t : num)
    (dna cert : value) (cts : num) (owner : value) (created : num)
    : option births.row :=
  kit' ← text_param kit; p1' ← text_param p1; p2' ← text_param p2;
  g' ← pg_int 32 g; t' ← pg_int 32 t;
  dna' ← text_param dna; cert' ← text_param cert;
  cts' ← pg_int 64 cts; owner' ← text_param owner;
  created' ← pg_int 64 created;
  Some (births.Row id kit' p1' p2' (Some g') (Some t') dna' cert'
          (Some cts') owner' (Some created')).

Definition transfers_row_of (id : Z) (s f t : value) (ts : num)
    : option transfers.row :=
  s' ← text_param s; f' ← text_param f; t' ← text_param t;
  ts' ← pg_int 64 ts;
  Some (transfers.Row id s' f' t' (Some ts')).

Definition audit_row_of (id : Z) (ev : value) (p : body) (ts : num)
    : option audit.row :=
  ev' ← text_param ev;
  p' ← (if jsonb_ok p then Some p else None);
  ts' ← pg_int 64 ts;
  Some (audit.Row id ev' (Some p') (Some ts')).

(** Runs one statement; [None] is a statement that raised, which leaves
    rows and sequences as they were. *)
Definition exec (q : query) (d : Db) : option (list births.row * Db) :=
  match q with
  | INSERT_births kit p1 p2 g t dna cert cts owner created =>
      let tbl := births_tbl d in
      let next := seq_last tbl + 1 in
      r ← births_row_of next kit p1 p2 g t dna cert cts owner created;
      let rows' := if conflicts (births.cert_id r) (rows tbl) then rows tbl
                   else rows tbl ++ [r] in
      Some ([], mkDb (Table rows' next) (transfers_tbl d) (audit_tbl d))
  | INSERT_transfers s f t ts =>
      let tbl := transfers_tbl d in
      let next := seq_last tbl + 1 in
      r ← transfers_row_of next s f t ts;
      Some ([], mkDb (births_tbl d) (Table (rows tbl ++ [r]) next) (audit_tbl d))
  | INSERT_audit ev p ts =>
      let tbl := audit_tbl d in
      let next := seq_last tbl + 1 in
      r ← audit_row_of next ev p ts;
      Some ([], mkDb (births_tbl d) (transfers_tbl d) (Table (rows tbl ++ [r]) next))
  | SELECT_births_by_cert_id c =>
      c' ← text_param c;
      match c' with
      | Some s => Some (take 1 (filter (fun r => has_cert_id s r = true)
                                  (rows (births_tbl d))), d)
      | None => Some ([], d)
      end
  end.

End Driver.

(** ** The world a route runs in *)

(** What the environment will answer: the [n]-th reading of [Date.now()]
    (milliseconds) and whether the [n]-th statement sent to the pool gets
    through to the database. *)
Record Env := mkEnv { Date_now : nat -> Z; storage_up : nat -> bool }.

(** The database, the number of clock readings taken so far and every
    statement sent to the pool so far, oldest first. *)
Record World := mkWorld { db : Db; ticks : nat; issued : list query }.

Inductive outcome (A : Type) := Val (a : A) | Thrown.
Arguments Val {A} _.
Arguments Thrown {A}.

Definition M (A : Type) : Type := Env -> World -> outcome A * World.

Definition ret {A} (a : A) : M A := fun _ w => (Val a, w).

Definition bind {A B} (m : M A) (k : A -> M B) : M B :=
  fun e w =>
    match m e w with
    | (Val a, w') => k a e w'
    | (Thrown, w') => (Thrown, w')
    end.

Notation "x <- m ;; k" := (bind m (fun x => k))
  (at level 100, m at next level, right associativity, only parsing).

(** [try { body } catch (e) { handler }]. *)
Definition try_catch {A} (body handler : M A) : M A :=
  fun e w =>
    match body e w with
    | (Thrown, w') => handler e w'
    | r => r
    end.

Notation "'try' body 'catch' handler" := (try_catch body handler)
  (at level 100, body at level 9, handler at level 9, only parsing).

(** [now = () => Math.floor(Date.now() / 1000)]. *)
Definition now : M Z :=
  fun e w => (Val (Date_now e (ticks w) / 1000), mkWorld (db w) (S (ticks w)) (issued w)).

(** [await pool.query(text, params)]: the statement is recorded as sent;
    it raises when the database is unreachable or rejects it. *)
Definition pool_query (NumberToString : Rendering) (q : query)
    : M (list births.row) :=
  fun e w =>
    let sent := issued w ++ [q] in
    if storage_up e (length (issued w)) then
      match exec NumberToString q (db w) with
      | Some (rs, d') => (Val rs, mkWorld d' (ticks w) sent)
      | None => (Thrown, mkWorld (db w) (ticks w) sent)
      end
    else (Thrown, mkWorld (db w) (ticks w) sent).

(** ** Responses *)

Record reply := Reply { ok : bool; reason : option string; record : option births.row }.

Record response := Response { status : Z; json : reply }.

(** [res.status(400).json({ ok: false, reason })]. *)
Definition bad (reason : string) : response :=
  Response 400 (Reply false (Some reason) None).

(** [res.json(...)]. *)
Definition res_json (r : reply) : response := Response 200 r.

(** [enforceFresh]: five minutes either side of the server clock. *)
Definition enforceFresh (ts : num) : M bool :=
  t <- now ;;
  ret (num_le (Math_abs (num_sub (Int t) ts)) (Int 300)).

(** ** The routes *)

Section Routes.

(** The runtime's Number::toString. *)
Variable NumberToString : Rendering.

(** [process.env.API_SECRET]. *)
Variable API_SECRET : string.

(** The runtime's StringToNumber, on the strings that denote a modelled
    number or no number at all. *)
Variable StringToNumber : string -> num.

Local Abbreviation ToString := (ToString NumberToString).
Local Abbreviation join := (join NumberToString).
Local Abbreviation pool_query := (pool_query NumberToString).

(** [Number(v)]. *)
Definition Number (v : value) : num :=
  match v with
  | VUndefined => NaN
  | VNull => Int 0
  | VBool true => Int 1
  | VBool false => Int 0
  | VNum n => n
  | VStr s => StringToNumber s
  end.

Definition verifySig (ts : num) (core : string) (sig : string) : bool :=
  let expect := md5 (NumberToString ts +:+ "|" +:+ core +:+ "|" +:+ API_SECRET) in
  String.eqb expect sig.

(** [app.post("/ebk/birth", ...)]. *)
Definition birth (req_body : option body) : M response :=
  let b := default ∅ req_body in
  let ts := Number (b.["ts"] || VNum (Int 0))%js in
  let sig := ToString (b.["sig"] || VStr "")%js in
  let core := join "|"
    [b.["cert_id"]; b.["cert_ts"]; b.["p1"]; b.["p2"];
     b.["gen"]; b.["tier"]; b.["dna_hash"]; b.["owner"]] in
  fresh <- enforceFresh ts ;;
  if negb fresh then ret (bad "stale ts") else
  if negb (verifySig ts core sig) then ret (bad "bad sig") else
  created_at <- now ;;
  try (
    _ <- pool_query (INSERT_births
           (b.["kit_sid"] || VNull)%js
           (b.["p1"] || VNull)%js
           (b.["p2"] || VNull)%js
           (Number (b.["gen"] || VNum (Int 0))%js)
           (Number (b.["tier"] || VNum (Int 0))%js)
           (b.["dna_hash"] || VNull)%js
           (b.["cert_id"] || VNull)%js
           (Number (b.["cert_ts"] || VNum (Int 0))%js)
           (b.["owner"] || VNull)%js
           (Int created_at)) ;;
    _ <- pool_query (INSERT_audit (VStr "birth") b (Int created_at)) ;;
    ret (res_json (Reply true None None))
  ) catch (
    ret (bad "db error")
  ).

(** [app.post("/ebk/transfer", ...)]. *)
Definition transfer (req_body : option body) : M response :=
  let b := default ∅ req_body in
  let ts := Number (b.["ts"] || VNum (Int 0))%js in
  let sig := ToString (b.["sig"] || VStr "")%js in
  let core := join "|" [b.["sid"]; b.["from_owner"]; b.["to_owner"]] in
  fresh <- enforceFresh ts ;;
  if negb fresh then ret (bad "stale ts") else
  if negb (verifySig ts core sig) then ret (bad "bad sig") else
  try (
    _ <- pool_query (INSERT_transfers
           (b.["sid"] || VNull)%js
           (b.["from_owner"] || VNull)%js
           (b.["to_owner"] || VNull)%js
           ts) ;;
    t <- now ;;
    _ <- pool_query (INSERT_audit (VStr "transfer") b (Int t)) ;;
    ret (res_json (Reply true None None))
  ) catch (
    ret (bad "db error")
  ).

(** [row.dna_hash] as the driver hands it back. *)
Definition column (c : option string) : value :=
  match c with
  | Some s => VStr s
  | None => VNull
  end.

(** [app.post("/ebk/verify", ...)]. *)
Definition verify (req_body : option body) : M response :=
  let b := default ∅ req_body in
  let ts := Number (b.["ts"] || VNum (Int 0))%js in
  let sig := ToString (b.["sig"] || VStr "")%js in
  let core := join "|" [b.["cert_id"]; b.["dna_hash"]] in
  fresh <- enforceFresh ts ;;
  if negb fresh then ret (bad "stale ts") else
  if negb (verifySig ts core sig) then ret (bad "bad sig") else
  try (
    rows <- pool_query (SELECT_births_by_cert_id b.["cert_id"]) ;;
    match rows with
    | [] => ret (res_json (Reply false (Some "not found") None))
    | row :: _ =>
        if truthy b.["dna_hash"] && truthy (column (births.dna_hash row))
           && strict_neq b.["dna_hash"] (column (births.dna_hash row))
        then ret (res_json (Reply false (Some "dna mismatch") None))
        else ret (res_json (Reply true None (Some row)))
    end
  ) catch (
    ret (bad "db error")
  ).

End Routes.

(** ** The protocol, as the design document words it *)

Inductive operation := Birth | Transfer | Verify.

(** The signed field order of each operation. *)
Definition signed_fields (op : operation) : list string :=
  match op with
  | Birth => ["cert_id"; "cert_ts"; "p1"; "p2"; "gen"; "tier"; "dna_hash"; "owner"]
  | Transfer => ["sid"; "from_owner"; "to_owner"]
  | Verify => ["cert_id"; "dna_hash"]
  end.

Definition field_tuple (op : operation) (b : body) : list value :=
  map (prop b) (signed_fields op).

(** The reading of the server clock that the next [now()] returns. *)
Definition server_time (e : Env) (w : World) : Z := Date_now e (ticks w) / 1000.

(** The world once the clock has been read. *)
Definition tick (w : World) : World := mkWorld (db w) (S (ticks w)) (issued w).

(** Whether the next statement sent to the pool reaches the database. *)
Definition reachable (e : Env) (w : World) : Prop :=
  storage_up e (length (issued w)) = true.

(** Freshness: the claimed timestamp is a number within 300 seconds of the
    server time, on either side. *)
Definition fresh_at (serverNow : Z) (ts : num) : Prop :=
  exists t, ts = Int t /\ Z.abs (serverNow - t) <= 300.

(** One statement sent to the pool, as a value: the database after it, or
    nothing when it raised. *)
Definition attempt (NumberToString : Rendering) (e : Env) (sent : list query)
    (q : query) (d : Db) : option Db :=
  if storage_up e (length sent) then snd <$> exec NumberToString q d else None.

(** The comparison [enforceFresh] makes, at a given clock reading. *)
Definition freshb (serverNow : Z) (ts : num) : bool :=
  num_le (Math_abs (num_sub (Int serverNow) ts)) (Int 300).

(** The success envelope [{ ok: true }]. *)
Definition success : response := res_json (Reply true None None).

Definition not_found : response := res_json (Reply false (Some "not found") None).

Definition dna_mismatch : response := res_json (Reply false (Some "dna mismatch") None).

Definition verified (r : births.row) : response := res_json (Reply true None (Some r)).

(** At most one row per certificate identifier, NULL apart: the UNIQUE
    constraint of [births.cert_id]. *)
Definition cert_unique (rs : list births.row) : Prop :=
  NoDup (omap births.cert_id rs).

(** The rows stored under a certificate identifier. *)
Definition stored_under (c : string) (rs : list births.row) : list births.row :=
  filter (fun r => births.cert_id r = Some c) rs.

(** [row] is the first row of [rs] stored under [c]. *)
Definition first_under (c : string) (rs : list births.row) (row : births.row) : Prop :=
  exists pre post,
    rs = pre ++ row :: post /\ births.cert_id row = Some c /\
    forall r, r ∈ pre -> births.cert_id r <> Some c.

(** The record carries the queried certificate identifier. *)
Definition identified_by (NumberToString : Rendering) (queried : value)
    (r : births.row) : Prop :=
  exists c, pg_text NumberToString queried = Some c /\ births.cert_id r = Some c.

(** [row] is the first stored record that carries the queried identifier. *)
Definition first_identified (NumberToString : Rendering) (queried : value)
    (rs : list births.row) (row : births.row) : Prop :=
  exists c, pg_text NumberToString queried = Some c /\ first_under c rs row.

(** The asserted and the stored content hash are both non-empty and
    differ. *)
Definition hashes_differ (asserted : value) (stored : option string) : Prop :=
  truthy asserted = true
  /\ exists s, stored = Some s /\ s <> "" /\ asserted <> VStr s.

(** Two tuples that differ in exactly one position. *)
Definition differ_in_one (l1 l2 : list value) : Prop :=
  exists pre x y post, l1 = pre ++ x :: post /\ l2 = pre ++ y :: post /\ x <> y.

Section Protocol.

Variable NumberToString : Rendering.
Variable API_SECRET : string.
Variable StringToNumber : string -> num.

Local Abbreviation ToString := (ToString NumberToString).
Local Abbreviation join := (join NumberToString).
Local Abbreviation pg_text := (pg_text NumberToString).
Local Abbreviation pg_int := (pg_int NumberToString).

Definition route (op : operation) : option body -> M response :=
  match op with
  | Birth => birth NumberToString API_SECRET StringToNumber
  | Transfer => transfer NumberToString API_SECRET StringToNumber
  | Verify => verify NumberToString API_SECRET StringToNumber
  end.

(** [Number(b.ts || 0)]. *)
Definition request_ts (b : body) : num :=
  Number StringToNumber (b.["ts"] || VNum (Int 0))%js.

(** [String(b.sig || "")]. *)
Definition supplied_sig (b : body) : string :=
  ToString (b.["sig"] || VStr "")%js.

(** The timestamp, the ordered field values and the shared secret, joined
    with the delimiter. *)
Definition signed_string (op : operation) (b : body) : string :=
  join "|" (VNum (request_ts b) :: field_tuple op b ++ [VStr API_SECRET]).

(** The signature the gate expects for a request. *)
Definition expected_sig (op : operation) (b : body) : string :=
  md5 (signed_string op b).

(** A request that passes both checks of the gate. *)
Definition passes_gate (op : operation) (b : body) (e : Env) (w : World) : Prop :=
  fresh_at (server_time e w) (request_ts b) /\ supplied_sig b = expected_sig op b.

(** What the birth route sends for the [cert_id] column. *)
Definition birth_cert_id (b : body) : option string :=
  pg_text (b.["cert_id"] || VNull)%js.

(** The INSERT of the birth route, for a row created at [created_at]. *)
Definition birth_insert (b : body) (created_at : Z) : query :=
  INSERT_births
    (b.["kit_sid"] || VNull)%js (b.["p1"] || VNull)%js (b.["p2"] || VNull)%js
    (Number StringToNumber (b.["gen"] || VNum (Int 0))%js)
    (Number StringToNumber (b.["tier"] || VNum (Int 0))%js)
    (b.["dna_hash"] || VNull)%js (b.["cert_id"] || VNull)%js
    (Number StringToNumber (b.["cert_ts"] || VNum (Int 0))%js)
    (b.["owner"] || VNull)%js (Int created_at).

(** The INSERT of the transfer route. *)
Definition transfer_insert (b : body) : query :=
  INSERT_transfers
    (b.["sid"] || VNull)%js (b.["from_owner"] || VNull)%js
    (b.["to_owner"] || VNull)%js (request_ts b).

(** The numeric columns of the row a birth request asks for fit their
    INT and BIGINT types. *)
Definition fits_births (b : body) (created_at : Z) : Prop :=
  is_Some (pg_int 32 (Number StringToNumber (b.["gen"] || VNum (Int 0))%js))
  /\ is_Some (pg_int 32 (Number StringToNumber (b.["tier"] || VNum (Int 0))%js))
  /\ is_Some (pg_int 64 (Number StringToNumber (b.["cert_ts"] || VNum (Int 0))%js))
  /\ is_Some (pg_int 64 (Int created_at)).

(** The row a birth request asks for, under a serial id and a creation
    time, when the database accepts every parameter of the insert. *)
Definition birth_row (b : body) (id created_at : Z) : option births.row :=
  births_row_of NumberToString id
    (b.["kit_sid"] || VNull)%js (b.["p1"] || VNull)%js (b.["p2"] || VNull)%js
    (Number StringToNumber (b.["gen"] || VNum (Int 0))%js)
    (Number StringToNumber (b.["tier"] || VNum (Int 0))%js)
    (b.["dna_hash"] || VNull)%js (b.["cert_id"] || VNull)%js
    (Number StringToNumber (b.["cert_ts"] || VNum (Int 0))%js)
    (b.["owner"] || VNull)%js (Int created_at).

(** The database accepts the parameters of the row insert of a birth: no
    text holds the byte 0 and the numbers fit their columns. *)
Definition birth_binds (b : body) (created_at : Z) : Prop :=
  is_Some (birth_row b 0 created_at).

(** It accepts those of the audit insert as well: the body holds no
    character of code 0. *)
Definition storable_birth (b : body) (created_at : Z) : Prop :=
  birth_binds b created_at /\ jsonb_ok b = true.

(** The database accepts the parameter of the lookup of a query. *)
Definition lookup_binds (b : body) : Prop :=
  is_Some (text_param NumberToString b.["cert_id"]).

End Protocol.

(** The event kind the audit trail records for a write. *)
Definition event_kind (op : operation) : string :=
  match op with
  | Birth => "birth"
  | Transfer => "transfer"
  | Verify => "verify"
  end.

(** The next [n] statements sent to the pool all reach the database. *)
Definition pool_up (e : Env) (w : World) (n : nat) : Prop :=
  forall i, (i < n)%nat -> storage_up e (length (issued w) + i) = true.

(** ** Sample data *)

Fixpoint digits_value (acc : Z) (s : string) : option Z :=
  match s with
  | EmptyString => Some acc
  | String c s' =>
      let d := Z.of_N (N_of_ascii c) - 48 in
      if (0 <=? d) && (d <=? 9) then digits_value (10 * acc + d) s' else None
  end.

(** StringToNumber on plain decimal text, the only text the samples below
    convert. *)
Definition decimal_text (s : string) : num :=
  match s with
  | EmptyString => Int 0
  | _ => match digits_value 0 s with Some z => Int z | None => NaN end
  end.

(** Number::toString on the integers up to 2^53 and on [NaN], the only
    numbers the samples below render. *)
Definition digits_or_NaN (n : num) : string :=
  match n with
  | Int z => decimal_digits z
  | NaN => "NaN"
  end.

Definition decimal_rendering : Rendering.
Proof.
  refine (mkRendering digits_or_NaN _ (fun z _ => eq_refl)).
  intros [z|]; [| discriminate].
  unfold digits_or_NaN, decimal_digits, NilZero.string_of_int.
  destruct (Z.to_int z) as [d | d]; [| discriminate].
  destruct d; discriminate.
Defined.

Definition sample_secret : string := "s3cret".

(** A clock that stands at 1700000010 seconds and a pool that is up. *)
Definition sample_env : Env := mkEnv (fun _ => 1700000010999) (fun _ => true).

Definition sample_world : World := mkWorld initSchema 0 [].

(** The birth of certificate C1, signed for timestamp 1700000000. *)
Definition sample_birth : body :=
  list_to_map
    [("ts", VNum (Int 1700000000)); ("sig", VStr "ccd717fc92d5d3a9a614728a6bc3d4f2");
     ("cert_id", VStr "C1"); ("cert_ts", VNum (Int 1000));
     ("p1", VStr "P1"); ("p2", VStr "P2"); ("gen", VNum (Int 3));
     ("tier", VNum (Int 2)); ("dna_hash", VStr "H1"); ("owner", VStr "OwnerA")].

(** The same request with the generation sent as text. *)
Definition sample_birth_text_gen : body :=
  <["gen" := VStr "3"]> sample_birth.

(** The same request asking for generation 4 instead of 3. *)
Definition sample_birth_gen4 : body :=
  <["gen" := VNum (Int 4)]> sample_birth.

(** A birth without certificate identifier, signed for 1700000000. *)
Definition sample_birth_anonymous : body :=
  list_to_map
    [("ts", VNum (Int 1700000000)); ("sig", VStr "5407057de6203f063a26a2de05ef3cbe");
     ("p1", VStr "P1"); ("p2", VStr "P2")].

Definition sample_transfer : body :=
  list_to_map
    [("ts", VNum (Int 1700000000)); ("sig", VStr "c3a796430dc2628420c57bb4da7ab5d7");
     ("sid", VStr "K1"); ("from_owner", VStr "OwnerA"); ("to_owner", VStr "OwnerB")].

Definition sample_verify : body :=
  list_to_map
    [("ts", VNum (Int 1700000000)); ("sig", VStr "dc9053d404f723981ea657d22b736e8a");
     ("cert_id", VStr "C1"); ("dna_hash", VStr "H1")].

Definition sample_transfer_no_ts : body := delete "ts" sample_transfer.

(** A clock that stands 400 seconds after the samples were signed. *)
Definition late_env : Env := mkEnv (fun _ => 1700000400999) (fun _ => true).

(** The world after the sample birth was accepted once. *)
Definition sample_after_birth : World :=
  snd (birth decimal_rendering sample_secret decimal_text (Some sample_birth) sample_env sample_world).

(** The world after the birth without identifier was accepted once, and
    twice. *)
Definition sample_after_anonymous : World :=
  snd (birth decimal_rendering sample_secret decimal_text (Some sample_birth_anonymous)
         sample_env sample_world).

Definition sample_after_anonymous_twice : World :=
  snd (birth decimal_rendering sample_secret decimal_text (Some sample_birth_anonymous)
         sample_env sample_after_anonymous).

(** The world after the sample transfer was accepted once, and twice. *)
Definition sample_after_transfer : World :=
  snd (transfer decimal_rendering sample_secret decimal_text (Some sample_transfer) sample_env sample_world).

Definition sample_after_transfers : World :=
  snd (transfer decimal_rendering sample_secret decimal_text (Some sample_transfer)
         sample_env sample_after_transfer).

(** ** The server as a whole *)

(** [app.get("/health", ...)]: no gate, no clock, no storage. *)
Definition health : M response := ret (res_json (Reply true None None)).

(** [if (!API_SECRET) throw ...]: the secret the process starts with, read
    from an environment variable that may be unset or empty. *)
Definition load_secret (env_var : option string) : outcome string :=
  match env_var with
  | Some s => if String.eqb s "" then Thrown else Val s
  | None => Thrown
  end.

Section Server.

Variable NumberToString : Rendering.
Variable API_SECRET : string.
Variable StringToNumber : string -> num.

(** The requests of a list handled one after the other, each to its
    answer. *)
Fixpoint serve (reqs : list (operation * option body)) (e : Env) (w : World) : World :=
  match reqs with
  | [] => w
  | (op, req) :: rest =>
      serve rest e (snd (route NumberToString API_SECRET StringToNumber op req e w))
  end.

End Server.

(** The world of a server that has just created its tables. *)
Definition boot : World := mkWorld initSchema 0 [].

(** A lowercase hexadecimal digit. *)
Definition is_hex_char (c : ascii) : bool :=
  existsb (Ascii.eqb c) (list_ascii_of_string "0123456789abcdef").

(** The shape of a digest: 32 lowercase hexadecimal digits. *)
Definition is_md5_hex (s : string) : bool :=
  Nat.eqb (String.length s) 32 && forallb is_hex_char (list_ascii_of_string s).

(** [low < i1 < i2 < ... < in <= high]. *)
Fixpoint ascending (low : Z) (ids : list Z) (high : Z) : Prop :=
  match ids with
  | [] => low <= high
  | i :: l => low < i /\ ascending i l high
  end.

(** The serial ids of a table: positive, increasing in insertion order and
    never beyond the last value of the sequence. *)
Definition serial_ok {R : Type} (id : R -> Z) (t : table R) : Prop :=
  ascending 0 (map id (rows t)) (seq_last t).

Definition serials_ok (d : Db) : Prop :=
  serial_ok births.id (births_tbl d)
  /\ serial_ok transfers.id (transfers_tbl d)
  /\ serial_ok audit.id (audit_tbl d).

(** A TEXT column as the routes leave it: NULL or a non-empty string. *)
Definition text_ok (c : option string) : Prop := c <> Some "".

Definition births_row_ok (r : births.row) : Prop :=
  text_ok (births.kit_sid r) /\ text_ok (births.p1_sid r) /\ text_ok (births.p2_sid r)
  /\ text_ok (births.dna_hash r) /\ text_ok (births.cert_id r)
  /\ text_ok (births.owner_uuid r)
  /\ is_Some (births.gen r) /\ is_Some (births.tier r)
  /\ is_Some (births.cert_ts r) /\ is_Some (births.created_at r).

Definition transfers_row_ok (r : transfers.row) : Prop :=
  text_ok (transfers.sid r) /\ text_ok (transfers.from_owner r)
  /\ text_ok (transfers.to_owner r) /\ is_Some (transfers.ts r).

Definition audit_row_ok (r : audit.row) : Prop :=
  (audit.event r = Some "birth" \/ audit.event r = Some "transfer")
  /\ is_Some (audit.payload r) /\ is_Some (audit.ts r).

Definition rows_ok (d : Db) : Prop :=
  Forall births_row_ok (rows (births_tbl d))
  /\ Forall transfers_row_ok (rows (transfers_tbl d))
  /\ Forall audit_row_ok (rows (audit_tbl d)).

(** ** More sample data *)

(** The sample birth under a signature that is well formed but wrong. *)
Definition sample_birth_forged : body :=
  <["sig" := VStr "00000000000000000000000000000000"]> sample_birth.

(** The sample birth with its signature in upper case, and without any. *)
Definition sample_birth_upper : body :=
  <["sig" := VStr "CCD717FC92D5D3A9A614728A6BC3D4F2"]> sample_birth.

Definition sample_birth_unsigned : body := delete "sig" sample_birth.

(** The sample birth asking for a generation beyond the INT range. *)
Definition sample_birth_big_gen : body :=
  <["sig" := VStr "e933cd92a6b3b40c9803a417b440954c"]>
    (<["gen" := VNum (Int 3000000000)]> sample_birth).

(** The sample birth naming a kit; the signature is the one of
    [sample_birth]. *)
Definition sample_birth_kit : body := <["kit_sid" := VStr "KitX"]> sample_birth.

(** A birth whose content hash is sent as the number 5, and the query that
    asserts the same number. *)
Definition sample_birth_num_hash : body :=
  list_to_map
    [("ts", VNum (Int 1700000000)); ("sig", VStr "9ed99f5f241a8645ecca5a4f766220f6");
     ("cert_id", VStr "C2"); ("cert_ts", VNum (Int 1000));
     ("p1", VStr "P1"); ("p2", VStr "P2"); ("gen", VNum (Int 3));
     ("tier", VNum (Int 2)); ("dna_hash", VNum (Int 5)); ("owner", VStr "OwnerA")].

Definition sample_verify_num_hash : body :=
  list_to_map
    [("ts", VNum (Int 1700000000)); ("sig", VStr "3a372c90e965805ace07fa47d810f4bb");
     ("cert_id", VStr "C2"); ("dna_hash", VNum (Int 5))].

Definition sample_after_num_hash : World :=
  snd (birth decimal_rendering sample_secret decimal_text (Some sample_birth_num_hash)
         sample_env sample_world).

(** A query that names no certificate. *)
Definition sample_verify_no_id : body :=
  list_to_map
    [("ts", VNum (Int 1700000000)); ("sig", VStr "b7a0ea02ca2ffbf5bff2a99ea8c237bf")].

(** Two transfers with one signature: the delimiter moves from the subject
    into the previous owner. *)
Definition sample_transfer_left : body :=
  list_to_map
    [("ts", VNum (Int 1700000000)); ("sig", VStr "bca106fbe7744761e6cf808fa6013bc4");
     ("sid", VStr "K1|OwnerA"); ("from_owner", VStr "OwnerB"); ("to_owner", VStr "OwnerC")].

Definition sample_transfer_right : body :=
  list_to_map
    [("ts", VNum (Int 1700000000)); ("sig", VStr "bca106fbe7744761e6cf808fa6013bc4");
     ("sid", VStr "K1"); ("from_owner", VStr "OwnerA|OwnerB"); ("to_owner", VStr "OwnerC")].

(** The sample query under a signature that is well formed but wrong. *)
Definition sample_verify_forged : body :=
  <["sig" := VStr "00000000000000000000000000000000"]> sample_verify.

(** The sample birth naming a kit whose text holds the byte 0, and the
    sample birth with a note that does; neither field is signed. *)
Definition sample_birth_nul_kit : body :=
  <["kit_sid" := VStr (String Ascii.zero "KitX")]> sample_birth.

Definition sample_birth_nul_note : body :=
  <["note" := VStr (String Ascii.zero "")]> sample_birth.

(** A query for an identifier that holds the byte 0. *)
Definition sample_verify_nul : body :=
  list_to_map
    [("ts", VNum (Int 1700000000)); ("sig", VStr "d46c7a6577a163139735461b060bbba0");
     ("cert_id", VStr ("a" +:+ String Ascii.zero "b"))].

(** Number::toString as above, and on 2^60 as the runtime has it: the
    shortest digits that read back as the same double. *)
Definition digits_shortest (n : num) : string :=
  match n with
  | Int z => if z =? 2 ^ 60 then "1152921504606847000" else decimal_digits z
  | NaN => "NaN"
  end.

Definition shortest_rendering : Rendering.
Proof.
  refine (mkRendering digits_shortest _ _).
  - intros [z|]; [| discriminate]. cbn [digits_shortest].
    destruct (z =? 2 ^ 60); [discriminate | apply (render_nonempty decimal_rendering (Int z))].
  - intros z Hz. cbn [digits_shortest].
    destruct (z =? 2 ^ 60) eqn:E; [apply Z.eqb_eq in E; lia | reflexivity].
Defined.

(** The sample birth with the certificate timestamp 2^60, signed over the
    text the runtime renders it to. *)
Definition sample_birth_big_ts : body :=
  <["sig" := VStr "d517304e522c22f75fb4edceea5bd7d3"]>
    (<["cert_ts" := VNum (Int (2 ^ 60))]> sample_birth).

(** A pool that takes the first statement and then goes down. *)
Definition flaky_env : Env := mkEnv (fun _ => 1700000010999) (fun n => Nat.eqb n 0).

(** * Properties *)

(** ** Strings and joins *)

Lemma append_cons (x : ascii) (a b : string) : String x a +:+ b = String x (a +:+ b).
Proof. reflexivity. Qed.

Lemma append_empty_r (a : string) : a +:+ "" = a.
Proof. induction a as [|x a IH]; [reflexivity | now rewrite append_cons, IH]. Qed.

Lemma append_assoc (a b c : string) : (a +:+ b) +:+ c = a +:+ b +:+ c.
Proof. induction a as [|x a IH]; [reflexivity | now rewrite !append_cons, IH]. Qed.

Lemma list_ascii_append (a b : string) :
  list_ascii_of_string (a +:+ b) = list_ascii_of_string a ++ list_ascii_of_string b.
Proof.
  induction a as [|x a IH]; [reflexivity |].
  rewrite append_cons. cbn [list_ascii_of_string]. now rewrite IH.
Qed.

Lemma list_ascii_inj (a b : string) :
  list_ascii_of_string a = list_ascii_of_string b -> a = b.
Proof.
  intros H. rewrite <- (string_of_list_ascii_of_string a),
    <- (string_of_list_ascii_of_string b). now rewrite H.
Qed.

Lemma append_cancel_r (a b c : string) : a +:+ c = b +:+ c -> a = b.
Proof.
  intros H. apply list_ascii_inj.
  apply (f_equal list_ascii_of_string) in H.
  rewrite !list_ascii_append in H. now apply app_inv_tail in H.
Qed.

Lemma append_cancel_l (a b c : string) : c +:+ a = c +:+ b -> a = b.
Proof.
  induction c as [|x c IH]; intros H; [assumption |].
  rewrite !append_cons in H. injection H. auto.
Qed.

Lemma concat_sep_cons (sep a : string) (l : list string) :
  l <> [] -> concat_sep sep (a :: l) = a +:+ sep +:+ concat_sep sep l.
Proof. destruct l; [intros H; now destruct H | reflexivity]. Qed.

Lemma concat_sep_snoc (sep c : string) (l : list string) :
  l <> [] -> concat_sep sep (l ++ [c]) = concat_sep sep l +:+ sep +:+ c.
Proof.
  induction l as [|a l IH]; [intros H; now destruct H | intros _].
  destruct l as [|a' l]; [reflexivity |].
  change ((a :: a' :: l) ++ [c]) with (a :: ((a' :: l) ++ [c])).
  rewrite concat_sep_cons by (simpl; discriminate).
  rewrite IH by discriminate.
  rewrite (concat_sep_cons sep a (a' :: l)) by discriminate.
  now rewrite !append_assoc.
Qed.

(** A join is the join of the part before a position, the element at it,
    and the part after it. *)
Lemma concat_sep_middle (sep : string) (pre post : list string) :
  exists before after,
    forall y, concat_sep sep (pre ++ y :: post) = before +:+ y +:+ after.
Proof.
  induction pre as [|a pre [before [after IH]]]; simpl.
  - destruct post as [|p post].
    + exists "", "". intros y. cbn [concat_sep]. now rewrite append_empty_r.
    + exists "", (sep +:+ concat_sep sep (p :: post)). intros y. reflexivity.
  - exists (a +:+ sep +:+ before), after. intros y.
    change (concat_sep sep (a :: (pre ++ y :: post))
            = (a +:+ sep +:+ before) +:+ y +:+ after).
    rewrite concat_sep_cons by (destruct pre; discriminate).
    rewrite IH. now rewrite !append_assoc.
Qed.

Lemma eqb_string_true (a b : string) : String.eqb a b = true <-> a = b.
Proof. apply String.eqb_eq. Qed.

(** ** The gate *)

Lemma freshb_spec (serverNow : Z) (ts : num) :
  freshb serverNow ts = true <-> fresh_at serverNow ts.
Proof.
  unfold freshb, fresh_at. destruct ts as [t|]; simpl.
  - rewrite Z.leb_le. split.
    + intros H. exists t. split; [reflexivity | assumption].
    + intros [t' [Ht H]]. injection Ht as ->. assumption.
  - split; [discriminate | intros [t [Ht _]]; discriminate].
Qed.

Lemma enforceFresh_run (ts : num) (e : Env) (w : World) :
  enforceFresh ts e w = (Val (freshb (server_time e w) ts), tick w).
Proof. reflexivity. Qed.

Section Gate.

Variable NumberToString : Rendering.
Variable API_SECRET : string.
Variable StringToNumber : string -> num.

Local Abbreviation ToString := (ToString NumberToString).
Local Abbreviation join_elem := (join_elem NumberToString).
Local Abbreviation join := (join NumberToString).
Local Abbreviation verifySig := (verifySig NumberToString).
Local Abbreviation request_ts := (request_ts StringToNumber).
Local Abbreviation supplied_sig := (supplied_sig NumberToString).
Local Abbreviation signed_string := (signed_string NumberToString API_SECRET StringToNumber).
Local Abbreviation expected_sig := (expected_sig NumberToString API_SECRET StringToNumber).

Lemma signed_string_unfold (op : operation) (b : body) :
  signed_string op b
  = NumberToString (request_ts b) +:+ "|" +:+
    join "|" (field_tuple op b) +:+ "|" +:+ API_SECRET.
Proof.
  unfold signed_string, join. cbn [map].
  rewrite map_app. cbn [map join_elem ToString].
  rewrite concat_sep_cons by (destruct op; discriminate).
  rewrite concat_sep_snoc by (destruct op; discriminate).
  reflexivity.
Qed.

Lemma verifySig_expected (op : operation) (b : body) :
  verifySig API_SECRET (request_ts b)
    (join "|" (field_tuple op b)) (supplied_sig b) = true
  <-> supplied_sig b = expected_sig op b.
Proof.
  unfold verifySig, expected_sig. rewrite signed_string_unfold, eqb_string_true.
  split; congruence.
Qed.

End Gate.

(** ** What each route does, case by case *)

(** Case analysis on every [match] and [if] left in hypothesis [H]. *)
Ltac case_matches H :=
  repeat match type of H with
         | context [match ?x with _ => _ end] => destruct x
         end.

Section Runs.

Variable NumberToString : Rendering.
Variable API_SECRET : string.
Variable StringToNumber : string -> num.

Local Abbreviation join := (join NumberToString).
Local Abbreviation text_param := (text_param NumberToString).
Local Abbreviation exec := (exec NumberToString).
Local Abbreviation attempt := (attempt NumberToString).
Local Abbreviation pool_query := (pool_query NumberToString).
Local Abbreviation verifySig := (verifySig NumberToString).
Local Abbreviation request_ts := (request_ts StringToNumber).
Local Abbreviation supplied_sig := (supplied_sig NumberToString).
Local Abbreviation expected_sig := (expected_sig NumberToString API_SECRET StringToNumber).
Local Abbreviation passes_gate := (passes_gate NumberToString API_SECRET StringToNumber).
Local Abbreviation birth_insert := (birth_insert StringToNumber).
Local Abbreviation transfer_insert := (transfer_insert StringToNumber).
Local Abbreviation route := (route NumberToString API_SECRET StringToNumber).
Local Abbreviation birth := (birth NumberToString API_SECRET StringToNumber).
Local Abbreviation transfer := (transfer NumberToString API_SECRET StringToNumber).
Local Abbreviation verify := (verify NumberToString API_SECRET StringToNumber).

(** The three routes open with the same two checks. *)
Lemma route_stale (op : operation) (req : option body) (e : Env) (w : World) :
  freshb (server_time e w) (request_ts (default ∅ req)) = false ->
  route op req e w = (Val (bad "stale ts"), tick w).
Proof.
  intros H. unfold request_ts in H.
  destruct op; unfold route, birth, transfer, verify, bind;
    rewrite enforceFresh_run, H; reflexivity.
Qed.

Lemma verifySig_false (op : operation) (b : body) :
  supplied_sig b <> expected_sig op b ->
  verifySig API_SECRET (request_ts b) (join "|" (field_tuple op b)) (supplied_sig b) = false.
Proof.
  intros H. apply not_true_is_false. intros Hv.
  apply H. now apply verifySig_expected.
Qed.

Lemma verifySig_true (op : operation) (b : body) :
  supplied_sig b = expected_sig op b ->
  verifySig API_SECRET (request_ts b) (join "|" (field_tuple op b)) (supplied_sig b) = true.
Proof. intros H. now apply verifySig_expected. Qed.

Lemma route_bad_sig (op : operation) (req : option body) (e : Env) (w : World) :
  freshb (server_time e w) (request_ts (default ∅ req)) = true ->
  supplied_sig (default ∅ req) <> expected_sig op (default ∅ req) ->
  route op req e w = (Val (bad "bad sig"), tick w).
Proof.
  intros H Hs. apply verifySig_false in Hs.
  unfold request_ts, supplied_sig in H, Hs.
  destruct op; cbn [field_tuple signed_fields map] in Hs;
    unfold route, birth, transfer, verify, bind;
    rewrite enforceFresh_run, H; cbn [negb]; rewrite Hs; reflexivity.
Qed.

Lemma pool_query_insert (q : query) (e : Env) (w : World) :
  (forall d rs d', exec q d = Some (rs, d') -> rs = []) ->
  pool_query q e w =
    match attempt e (issued w) q (db w) with
    | Some d' => (Val [], mkWorld d' (ticks w) (issued w ++ [q]))
    | None => (Thrown, mkWorld (db w) (ticks w) (issued w ++ [q]))
    end.
Proof.
  intros Hrs. unfold pool_query, attempt.
  destruct (storage_up e (length (issued w))); [|reflexivity].
  destruct (exec q (db w)) as [[rs d']|] eqn:E; [|reflexivity].
  apply Hrs in E. now subst.
Qed.

Lemma exec_insert_no_rows (q : query) (d d' : Db) (rs : list births.row) :
  (forall c, q <> SELECT_births_by_cert_id c) ->
  exec q d = Some (rs, d') -> rs = [].
Proof.
  intros Hq H. destruct q; unfold exec in H;
    [apply bind_Some in H as (r & _ & H); cbn in H; congruence ..|].
  now destruct (Hq cert_id).
Qed.

(** Replaces the next INSERT sent to the pool by its outcome. *)
Ltac send_insert q :=
  rewrite (pool_query_insert q)
    by (intros; eapply exec_insert_no_rows; eauto; discriminate);
  cbn [db issued ticks].

(** A birth past the gate: the row insert, then the audit insert, each of
    which may raise. *)
Lemma birth_gated_run (req : option body) (e : Env) (w : World) :
  let b := default ∅ req in
  let t := Date_now e (S (ticks w)) / 1000 in
  let q1 := birth_insert b t in
  let q2 := INSERT_audit (VStr "birth") b (Int t) in
  passes_gate Birth b e w ->
  birth req e w =
    match attempt e (issued w) q1 (db w) with
    | None => (Val (bad "db error"),
               mkWorld (db w) (S (S (ticks w))) (issued w ++ [q1]))
    | Some d1 =>
        match attempt e (issued w ++ [q1]) q2 d1 with
        | None => (Val (bad "db error"),
                   mkWorld d1 (S (S (ticks w))) ((issued w ++ [q1]) ++ [q2]))
        | Some d2 => (Val success,
                      mkWorld d2 (S (S (ticks w))) ((issued w ++ [q1]) ++ [q2]))
        end
    end.
Proof.
  intros b t q1 q2 [Hf Hs]. apply freshb_spec in Hf.
  apply (verifySig_true Birth) in Hs.
  unfold request_ts, supplied_sig in Hf, Hs.
  cbn [field_tuple signed_fields map] in Hs.
  unfold birth, bind at 1. rewrite enforceFresh_run. fold b. rewrite Hf.
  cbn [negb]. rewrite Hs. cbn [negb].
  unfold bind at 1. unfold now at 1. cbn [tick ticks db issued].
  fold t. unfold try_catch, bind.
  fold (birth_insert b t). fold q1. fold q2.
  send_insert q1.
  destruct (attempt e (issued w) q1 (db w)) as [d1|]; [|reflexivity].
  send_insert q2.
  destruct (attempt e (issued w ++ [q1]) q2 d1) as [d2|]; reflexivity.
Qed.

(** A transfer past the gate: the row insert, a clock reading, the audit
    insert. *)
Lemma transfer_gated_run (req : option body) (e : Env) (w : World) :
  let b := default ∅ req in
  let t := Date_now e (S (ticks w)) / 1000 in
  let q1 := transfer_insert b in
  let q2 := INSERT_audit (VStr "transfer") b (Int t) in
  passes_gate Transfer b e w ->
  transfer req e w =
    match attempt e (issued w) q1 (db w) with
    | None => (Val (bad "db error"),
               mkWorld (db w) (S (ticks w)) (issued w ++ [q1]))
    | Some d1 =>
        match attempt e (issued w ++ [q1]) q2 d1 with
        | None => (Val (bad "db error"),
                   mkWorld d1 (S (S (ticks w))) ((issued w ++ [q1]) ++ [q2]))
        | Some d2 => (Val success,
                      mkWorld d2 (S (S (ticks w))) ((issued w ++ [q1]) ++ [q2]))
        end
    end.
Proof.
  intros b t q1 q2 [Hf Hs]. apply freshb_spec in Hf.
  apply (verifySig_true Transfer) in Hs.
  unfold request_ts, supplied_sig in Hf, Hs.
  cbn [field_tuple signed_fields map] in Hs.
  unfold transfer, bind at 1. rewrite enforceFresh_run. fold b. rewrite Hf.
  cbn [negb]. rewrite Hs. cbn [negb].
  unfold try_catch, bind.
  fold (request_ts b). fold (transfer_insert b). fold q1.
  send_insert q1. cbn [tick db issued ticks].
  destruct (attempt e (issued w) q1 (db w)) as [d1|]; [|reflexivity].
  unfold now. cbn [db issued ticks]. fold t. fold q2.
  send_insert q2.
  destruct (attempt e (issued w ++ [q1]) q2 d1) as [d2|]; reflexivity.
Qed.

(** A verify past the gate: one lookup, then the comparison of the hashes. *)
Lemma verify_gated_run (req : option body) (e : Env) (w : World) :
  let b := default ∅ req in
  let q := SELECT_births_by_cert_id b.["cert_id"] in
  let w' := mkWorld (db w) (S (ticks w)) (issued w ++ [q]) in
  passes_gate Verify b e w ->
  verify req e w =
    if storage_up e (length (issued w)) then
      match text_param b.["cert_id"] with
      | None => (Val (bad "db error"), w')
      | Some None => (Val not_found, w')
      | Some (Some c) =>
          match stored_under c (rows (births_tbl (db w))) with
          | [] => (Val not_found, w')
          | row :: _ =>
              if truthy b.["dna_hash"] && truthy (column (births.dna_hash row))
                 && strict_neq b.["dna_hash"] (column (births.dna_hash row))
              then (Val dna_mismatch, w')
              else (Val (verified row), w')
          end
      end
    else (Val (bad "db error"), w').
Proof.
  intros b q w' [Hf Hs]. apply freshb_spec in Hf.
  apply (verifySig_true Verify) in Hs.
  unfold request_ts, supplied_sig in Hf, Hs.
  cbn [field_tuple signed_fields map] in Hs.
  unfold verify, bind at 1. rewrite enforceFresh_run. fold b. rewrite Hf.
  cbn [negb]. rewrite Hs. cbn [negb].
  unfold try_catch, bind, pool_query. cbn [tick db issued ticks].
  fold q. destruct (storage_up e (length (issued w))); [|reflexivity].
  unfold q at 1. unfold exec.
  destruct (text_param b.["cert_id"]) as [[c|]|]; [|reflexivity ..].
  cbn [mbind option_bind].
  assert (Hfilter : filter (fun r => has_cert_id c r = true) (rows (births_tbl (db w)))
                    = stored_under c (rows (births_tbl (db w)))).
  { unfold stored_under. apply list_filter_iff. intros r.
    unfold has_cert_id. now rewrite bool_decide_eq_true. }
  rewrite Hfilter.
  destruct (stored_under c (rows (births_tbl (db w)))) as [|row rest]; [reflexivity|].
  cbn [take].
  destruct (truthy b.["dna_hash"] && truthy (column (births.dna_hash row))
            && strict_neq b.["dna_hash"] (column (births.dna_hash row))); reflexivity.
Qed.

End Runs.

(** ** Freshness *)

(** C3.  The freshness check accepts a timestamp [t] exactly when it lies
    within 300 seconds of the server time, before or after it; it reads the
    clock and touches nothing else.  A skew of exactly 300 seconds is
    fresh and one of 301 seconds is stale, on both sides.  What is not a
    number is never fresh. *)
Theorem enforceFresh_window (e : Env) (w : World) (t : Z) :
  let serverNow := server_time e w in
  (fst (enforceFresh (Int t) e w) = Val true <-> Z.abs (serverNow - t) <= 300)
  /\ (fst (enforceFresh (Int t) e w) = Val false <-> 300 < Z.abs (serverNow - t))
  /\ snd (enforceFresh (Int t) e w) = tick w
  /\ fst (enforceFresh (Int (serverNow - 300)) e w) = Val true
  /\ fst (enforceFresh (Int (serverNow + 300)) e w) = Val true
  /\ fst (enforceFresh (Int (serverNow - 301)) e w) = Val false
  /\ fst (enforceFresh (Int (serverNow + 301)) e w) = Val false
  /\ fst (enforceFresh NaN e w) = Val false.
Proof.
  intros serverNow. rewrite !enforceFresh_run. cbn [fst snd].
  unfold freshb, num_sub, Math_abs, num_le. fold serverNow.
  repeat split.
  - intros H. injection H as H. now apply Z.leb_le.
  - intros H. f_equal. now apply Z.leb_le.
  - intros H. injection H as H. now apply Z.leb_gt.
  - intros H. f_equal. now apply Z.leb_gt.
  - f_equal. apply Z.leb_le. lia.
  - f_equal. apply Z.leb_le. lia.
  - f_equal. apply Z.leb_gt. lia.
  - f_equal. apply Z.leb_gt. lia.
Qed.

Section Admission.

Variable NumberToString : Rendering.
Variable API_SECRET : string.
Variable StringToNumber : string -> num.

Local Abbreviation join := (join NumberToString).
Local Abbreviation verifySig := (verifySig NumberToString).
Local Abbreviation request_ts := (request_ts StringToNumber).
Local Abbreviation supplied_sig := (supplied_sig NumberToString).
Local Abbreviation signed_string := (signed_string NumberToString API_SECRET StringToNumber).
Local Abbreviation expected_sig := (expected_sig NumberToString API_SECRET StringToNumber).
Local Abbreviation passes_gate := (passes_gate NumberToString API_SECRET StringToNumber).
Local Abbreviation route := (route NumberToString API_SECRET StringToNumber).

Lemma stale_run (op : operation) (req : option body) (e : Env) (w : World) :
  ~ fresh_at (server_time e w) (request_ts (default ∅ req)) ->
  route op req e w = (Val (bad "stale ts"), tick w).
Proof.
  intros H. apply route_stale. apply not_true_is_false.
  intros Hf. apply H. now apply freshb_spec.
Qed.

(** C4.  On each of the three routes, a request whose supplied timestamp
    lies outside the freshness window is answered with status 400 and the
    reason "stale ts"; no statement is sent to the pool and the database is
    left as it was.  Nothing is assumed about the signature, so this holds
    for a correctly signed request as well. *)
Theorem stale_rejected_before_storage
    (op : operation) (req : option body) (e : Env) (w : World) :
  ~ fresh_at (server_time e w) (request_ts (default ∅ req)) ->
  exists w',
    route op req e w = (Val (bad "stale ts"), w')
    /\ issued w' = issued w /\ db w' = db w.
Proof.
  intros H. exists (tick w). rewrite stale_run by assumption. now repeat split.
Qed.

(** C9.  On each of the three routes, a request whose [ts] field is absent
    or falsy has its timestamp coerced to 0; once the server clock is past
    300 seconds it is answered "stale ts", with no statement sent to the
    pool and the database left as it was. *)
Theorem missing_ts_is_stale
    (op : operation) (req : option body) (e : Env) (w : World) :
  truthy (default ∅ req).["ts"] = false ->
  300 < server_time e w ->
  request_ts (default ∅ req) = Int 0
  /\ exists w',
       route op req e w = (Val (bad "stale ts"), w')
       /\ issued w' = issued w /\ db w' = db w.
Proof.
  intros Hts Hclock.
  assert (H0 : request_ts (default ∅ req) = Int 0).
  { unfold request_ts, or_else. now rewrite Hts. }
  split; [assumption |].
  exists (tick w). rewrite stale_run; [now repeat split |].
  rewrite H0. intros [t [Ht Habs]]. injection Ht as <-. lia.
Qed.

(** Once the timestamp is fresh, a route answers "bad sig" exactly when
    the supplied signature is not the expected one. *)
Lemma bad_sig_iff (op : operation) (req : option body) (e : Env) (w : World) :
  fresh_at (server_time e w) (request_ts (default ∅ req)) ->
  fst (route op req e w) = Val (bad "bad sig")
  <-> supplied_sig (default ∅ req) <> expected_sig op (default ∅ req).
Proof.
  intros Hf.
  destruct (decide (supplied_sig (default ∅ req) = expected_sig op (default ∅ req)))
    as [Heq | Hne].
  - split; [|intros H; now destruct H].
    intros H. exfalso.
    assert (Ha : passes_gate op (default ∅ req) e w) by (split; assumption).
    destruct op; unfold route in H.
    + rewrite birth_gated_run in H by exact Ha. case_matches H; discriminate.
    + rewrite transfer_gated_run in H by exact Ha. case_matches H; discriminate.
    + rewrite verify_gated_run in H by exact Ha. case_matches H; discriminate.
  - split; [intros _; assumption | intros _].
    rewrite route_bad_sig; [reflexivity | now apply freshb_spec | assumption].
Qed.

(** C2.  On each route, once the timestamp is fresh, the signature check
    passes exactly when the supplied signature is the hex MD5 digest of
    the timestamp, the operation's ordered field values and the shared
    secret joined with "|": the request is answered "bad sig" if and only
    if the two strings differ.  The same holds of [verifySig] applied to
    the joined fields. *)
Theorem signature_check
    (op : operation) (req : option body) (e : Env) (w : World) :
  let b := default ∅ req in
  fresh_at (server_time e w) (request_ts b) ->
  (verifySig API_SECRET (request_ts b) (join "|" (field_tuple op b)) (supplied_sig b) = true
   <-> supplied_sig b = md5 (signed_string op b))
  /\ (fst (route op req e w) = Val (bad "bad sig")
      <-> supplied_sig b <> md5 (signed_string op b)).
Proof.
  intros b Hf. split; [apply verifySig_expected |].
  exact (bad_sig_iff op req e w Hf).
Qed.

End Admission.

(** ** The store *)

Lemma conflicts_stored_under (c : string) (rs : list births.row) :
  conflicts (Some c) rs = true <-> stored_under c rs <> [].
Proof.
  unfold conflicts, stored_under. induction rs as [|r rs IH]; simpl.
  - split; [discriminate | intros H; now destruct H].
  - rewrite filter_cons. unfold has_cert_id at 1.
    destruct (decide (births.cert_id r = Some c)) as [Hr | Hr].
    + rewrite bool_decide_eq_true_2 by assumption. simpl. split; [discriminate | reflexivity].
    + rewrite bool_decide_eq_false_2 by assumption. simpl. exact IH.
Qed.

Lemma stored_under_omap (c : string) (rs : list births.row) :
  stored_under c rs = [] <-> c ∉ omap births.cert_id rs.
Proof.
  unfold stored_under. rewrite list_elem_of_omap. split.
  - intros H [r [Hr Hc]].
    assert (Hin : r ∈ filter (fun r => births.cert_id r = Some c) rs)
      by (apply list_elem_of_filter; split; assumption).
    rewrite H in Hin. now apply not_elem_of_nil in Hin.
  - intros H.
    destruct (filter (fun r => births.cert_id r = Some c) rs) as [|r l] eqn:E;
      [reflexivity | exfalso].
    assert (Hin : r ∈ filter (fun r => births.cert_id r = Some c) rs)
      by (rewrite E; apply list_elem_of_here).
    apply list_elem_of_filter in Hin as [Hc Hr]. apply H. eauto.
Qed.

Lemma cert_unique_stored_under (c : string) (rs : list births.row) :
  cert_unique rs -> (length (stored_under c rs) <= 1)%nat.
Proof.
  unfold cert_unique, stored_under. induction rs as [|r rs IH]; simpl; [lia |].
  rewrite filter_cons.
  destruct (births.cert_id r) as [c'|] eqn:Hr.
  - rewrite NoDup_cons. intros [Hnotin Hnd].
    destruct (decide (Some c' = Some c)) as [Heq | Hne]; [|now apply IH].
    injection Heq as ->.
    apply stored_under_omap in Hnotin. unfold stored_under in Hnotin.
    rewrite Hnotin. simpl. lia.
  - intros Hnd. destruct (decide (None = Some c)); [discriminate | now apply IH].
Qed.

Lemma cert_unique_snoc (rs : list births.row) (r : births.row) :
  cert_unique rs ->
  conflicts (births.cert_id r) rs = false ->
  cert_unique (rs ++ [r]).
Proof.
  unfold cert_unique. intros Hnd Hc. rewrite omap_app. simpl.
  destruct (births.cert_id r) as [c|] eqn:Hr; simpl.
  - apply NoDup_app. split; [assumption |]. split; [| apply NoDup_singleton].
    intros x Hx Hx'. apply list_elem_of_singleton in Hx'. subst x.
    apply stored_under_omap in Hx; [assumption |].
    destruct (stored_under c rs) eqn:E; [reflexivity |].
    assert (conflicts (Some c) rs = true)
      by (apply conflicts_stored_under; rewrite E; discriminate).
    congruence.
  - now rewrite app_nil_r.
Qed.

Section Store.

Variable NumberToString : Rendering.
Variable StringToNumber : string -> num.

Local Abbreviation ToString := (ToString NumberToString).
Local Abbreviation pg_text := (pg_text NumberToString).
Local Abbreviation text_param := (text_param NumberToString).
Local Abbreviation pg_int := (pg_int NumberToString).
Local Abbreviation births_row_of := (births_row_of NumberToString).
Local Abbreviation transfers_row_of := (transfers_row_of NumberToString).
Local Abbreviation audit_row_of := (audit_row_of NumberToString).
Local Abbreviation exec := (exec NumberToString).
Local Abbreviation attempt := (attempt NumberToString).
Local Abbreviation request_ts := (request_ts StringToNumber).
Local Abbreviation birth_cert_id := (birth_cert_id NumberToString).
Local Abbreviation birth_insert := (birth_insert StringToNumber).
Local Abbreviation transfer_insert := (transfer_insert StringToNumber).
Local Abbreviation fits_births := (fits_births NumberToString StringToNumber).
Local Abbreviation birth_row := (birth_row NumberToString StringToNumber).
Local Abbreviation birth_binds := (birth_binds NumberToString StringToNumber).

(** The database reads back the digits of an integer as that integer. *)
Lemma pg_parse_int_digits (z : Z) : pg_parse_int (decimal_digits z) = Some z.
Proof.
  unfold pg_parse_int, decimal_digits.
  assert (H : Z.to_int z <> Decimal.Pos Decimal.Nil /\ Z.to_int z <> Decimal.Neg Decimal.Nil).
  { destruct z as [|q|q]; cbn; split; try discriminate.
    all: intros H; injection H as H; revert H; apply Unsigned.to_uint_nonnil. }
  destruct H as [H1 H2].
  rewrite NilZero.isi by assumption. cbn. now rewrite DecimalZ.of_to.
Qed.

(** An integer the runtime renders exactly reaches its column unchanged,
    when it reaches it. *)
Lemma pg_int_safe (bits z z' : Z) :
  Z.abs z <= 2 ^ 53 -> pg_int bits (Int z) = Some z' -> z' = z.
Proof.
  intros Hz. unfold pg_int. rewrite render_safe by assumption.
  rewrite pg_parse_int_digits. cbn. destruct (_ && _); congruence.
Qed.

Lemma pg_int_64_safe (z : Z) : Z.abs z <= 2 ^ 53 -> pg_int 64 (Int z) = Some z.
Proof.
  intros Hz. unfold pg_int. rewrite render_safe by assumption.
  rewrite pg_parse_int_digits. cbn.
  assert (H : (- 2 ^ (64 - 1) <=? z) && (z <? 2 ^ (64 - 1)) = true); [| now rewrite H].
  apply andb_true_iff. split; [apply Z.leb_le | apply Z.ltb_lt]; lia.
Qed.

(** What the database binds to a TEXT parameter it accepts is the text the
    driver sent. *)
Lemma text_param_Some (v : value) (c : option string) :
  text_param v = Some c -> c = pg_text v.
Proof.
  unfold text_param. destruct (pg_text v) as [s|]; [destruct (has_nul s) |]; congruence.
Qed.

Lemma text_param_clean (v : value) (s : string) :
  text_param v = Some (Some s) -> has_nul s = false.
Proof.
  unfold text_param. destruct (pg_text v) as [s'|]; [| congruence].
  destruct (has_nul s') eqn:Hs; congruence.
Qed.

Lemma text_param_accepts (v : value) (s : string) :
  pg_text v = Some s -> has_nul s = false -> text_param v = Some (Some s).
Proof. unfold text_param. intros -> ->. reflexivity. Qed.

(** A row the database accepted, column by column. *)
Lemma births_row_of_Some (id : Z) (kit p1 p2 : value) (g t : num)
    (dna cert : value) (cts : num) (owner : value) (created : num) (r : births.row) :
  births_row_of id kit p1 p2 g t dna cert cts owner created = Some r ->
  exists g' t' cts' created',
    pg_int 32 g = Some g' /\ pg_int 32 t = Some t'
    /\ pg_int 64 cts = Some cts' /\ pg_int 64 created = Some created'
    /\ r = births.Row id (pg_text kit) (pg_text p1) (pg_text p2) (Some g') (Some t')
             (pg_text dna) (pg_text cert) (Some cts') (pg_text owner) (Some created').
Proof.
  unfold births_row_of. intros H.
  repeat (apply bind_Some in H as (? & ? & H)).
  injection H as <-.
  repeat match goal with
         | H : text_param _ = Some _ |- _ => apply text_param_Some in H; subst
         end.
  eauto 10.
Qed.

(** Whether the database accepts a row does not depend on its serial id. *)
Lemma births_row_of_id (id id' : Z) (kit p1 p2 : value) (g t : num)
    (dna cert : value) (cts : num) (owner : value) (created : num) :
  is_Some (births_row_of id kit p1 p2 g t dna cert cts owner created) ->
  is_Some (births_row_of id' kit p1 p2 g t dna cert cts owner created).
Proof.
  unfold births_row_of. intros [r H].
  repeat (apply bind_Some in H as (? & ? & H)).
  repeat match goal with
         | H : _ = Some _ |- _ => rewrite H; clear H
         end.
  cbn. eauto.
Qed.

Lemma birth_binds_fits (b : body) (t : Z) : birth_binds b t -> fits_births b t.
Proof.
  intros [r H]. apply births_row_of_Some in H as (g & ti & cts & c & H1 & H2 & H3 & H4 & _).
  unfold fits_births. rewrite H1, H2, H3, H4. repeat split; eauto.
Qed.

(** The row a birth asks for: no TEXT column holds the empty string, no
    numeric column is NULL. *)
Lemma birth_row_Some (b : body) (id t : Z) (r : births.row) :
  birth_row b id t = Some r ->
  births.id r = id /\ births.cert_id r = birth_cert_id b
  /\ births.dna_hash r = pg_text (b.["dna_hash"] || VNull)%js
  /\ births.kit_sid r = pg_text (b.["kit_sid"] || VNull)%js
  /\ births.created_at r = pg_int 64 (Int t).
Proof.
  intros H. apply births_row_of_Some in H as (g & ti & cts & c & _ & _ & _ & Hc & ->).
  cbn. now rewrite Hc.
Qed.

(** The row insert of a birth: nothing but [births] changes; the row is
    appended unless its certificate identifier is already stored. *)
Lemma attempt_birth_insert_row (e : Env) (sent : list query) (b : body) (t : Z) (d d1 : Db) :
  attempt e sent (birth_insert b t) d = Some d1 ->
  transfers_tbl d1 = transfers_tbl d /\ audit_tbl d1 = audit_tbl d
  /\ exists r,
       birth_row b (seq_last (births_tbl d) + 1) t = Some r
       /\ seq_last (births_tbl d1) = seq_last (births_tbl d) + 1
       /\ rows (births_tbl d1)
          = if conflicts (birth_cert_id b) (rows (births_tbl d))
            then rows (births_tbl d) else rows (births_tbl d) ++ [r].
Proof.
  unfold attempt. destruct (storage_up e (length sent)); [| discriminate].
  unfold birth_insert, exec. fold (birth_row b (seq_last (births_tbl d) + 1) t).
  destruct (birth_row b (seq_last (births_tbl d) + 1) t) as [r|] eqn:Hr; [| discriminate].
  cbn. intros H. injection H as <-. cbn. repeat split.
  exists r. apply birth_row_Some in Hr as (_ & -> & _). now repeat split.
Qed.

Lemma attempt_birth_insert (e : Env) (sent : list query) (b : body) (t : Z) (d d1 : Db) :
  attempt e sent (birth_insert b t) d = Some d1 ->
  transfers_tbl d1 = transfers_tbl d /\ audit_tbl d1 = audit_tbl d
  /\ exists r,
       births.cert_id r = birth_cert_id b
       /\ rows (births_tbl d1)
          = if conflicts (birth_cert_id b) (rows (births_tbl d))
            then rows (births_tbl d) else rows (births_tbl d) ++ [r].
Proof.
  intros H. apply attempt_birth_insert_row in H as (Ht & Ha & r & Hr & _ & Hrows).
  repeat split; [assumption .. |]. exists r.
  apply birth_row_Some in Hr as (_ & Hc & _). now split.
Qed.

(** It runs whenever the pool is up and the database accepts the
    parameters, whether or not the identifier is already stored. *)
Lemma attempt_birth_insert_runs (e : Env) (sent : list query) (b : body) (t : Z) (d : Db) :
  storage_up e (length sent) = true ->
  birth_binds b t ->
  is_Some (attempt e sent (birth_insert b t) d).
Proof.
  intros Hup Hb. unfold attempt. rewrite Hup.
  apply (births_row_of_id _ (seq_last (births_tbl d) + 1)) in Hb as [r Hr].
  unfold birth_insert, exec. rewrite Hr. cbn. eauto.
Qed.

(** It raises as soon as the database refuses one of the parameters. *)
Lemma attempt_birth_insert_fails (e : Env) (sent : list query) (b : body) (t : Z) (d : Db) :
  ~ birth_binds b t -> attempt e sent (birth_insert b t) d = None.
Proof.
  intros Hb. destruct (attempt e sent (birth_insert b t) d) as [d1|] eqn:H; [| reflexivity].
  exfalso. apply Hb.
  apply attempt_birth_insert_row in H as (_ & _ & r & Hr & _).
  apply (births_row_of_id (seq_last (births_tbl d) + 1) 0). unfold birth_row in Hr. eauto.
Qed.

Lemma attempt_transfer_insert (e : Env) (sent : list query) (b : body) (d d1 : Db) :
  attempt e sent (transfer_insert b) d = Some d1 ->
  births_tbl d1 = births_tbl d /\ audit_tbl d1 = audit_tbl d
  /\ exists ts,
       pg_int 64 (request_ts b) = Some ts
       /\ seq_last (transfers_tbl d1) = seq_last (transfers_tbl d) + 1
       /\ rows (transfers_tbl d1)
          = rows (transfers_tbl d)
            ++ [transfers.Row (seq_last (transfers_tbl d) + 1)
                  (pg_text (b.["sid"] || VNull)%js)
                  (pg_text (b.["from_owner"] || VNull)%js)
                  (pg_text (b.["to_owner"] || VNull)%js) (Some ts)].
Proof.
  unfold attempt. destruct (storage_up e (length sent)); [|discriminate].
  unfold transfer_insert, exec, transfers_row_of. intros H.
  apply fmap_Some in H as ([rs d'] & H & ->).
  apply bind_Some in H as (r & Hr & H). injection H as _ <-.
  repeat (apply bind_Some in Hr as (? & ? & Hr)).
  injection Hr as <-. cbn.
  repeat match goal with
         | H : text_param _ = Some _ |- _ => apply text_param_Some in H; subst
         end.
  repeat split. eexists. now repeat split.
Qed.

Lemma attempt_audit_insert (e : Env) (sent : list query) (ev : string) (p : body) (t : Z) (d d2 : Db) :
  attempt e sent (INSERT_audit (VStr ev) p (Int t)) d = Some d2 ->
  births_tbl d2 = births_tbl d /\ transfers_tbl d2 = transfers_tbl d
  /\ exists ts,
       pg_int 64 (Int t) = Some ts
       /\ rows (audit_tbl d2)
          = rows (audit_tbl d)
            ++ [audit.Row (seq_last (audit_tbl d) + 1) (Some ev) (Some p) (Some ts)].
Proof.
  unfold attempt. destruct (storage_up e (length sent)); [|discriminate].
  unfold exec, audit_row_of. intros H.
  apply fmap_Some in H as ([rs d'] & H & ->).
  apply bind_Some in H as (r & Hr & H). injection H as _ <-.
  repeat (apply bind_Some in Hr as (? & ? & Hr)).
  injection Hr as <-. cbn.
  repeat match goal with
         | H : text_param _ = Some _ |- _ => apply text_param_Some in H; subst
         | H : (if jsonb_ok ?p then _ else _) = Some _ |- _ =>
             destruct (jsonb_ok p); [injection H as <- | discriminate]
         end.
  repeat split. eexists. now repeat split.
Qed.

(** The audit insert is accepted only when the payload holds no character
    of code 0. *)
Lemma attempt_audit_insert_payload (e : Env) (sent : list query) (ev : value) (p : body)
    (ts : num) (d d2 : Db) :
  attempt e sent (INSERT_audit ev p ts) d = Some d2 -> jsonb_ok p = true.
Proof.
  unfold attempt. destruct (storage_up e (length sent)); [|discriminate].
  unfold exec, audit_row_of. intros H.
  apply fmap_Some in H as ([rs d'] & H & _).
  apply bind_Some in H as (r & Hr & _).
  repeat (apply bind_Some in Hr as (? & ? & Hr)).
  destruct (jsonb_ok p); [reflexivity | discriminate].
Qed.

Lemma attempt_audit_insert_runs (e : Env) (sent : list query) (ev : string) (p : body) (t : Z) (d : Db) :
  storage_up e (length sent) = true ->
  has_nul ev = false ->
  jsonb_ok p = true ->
  is_Some (pg_int 64 (Int t)) ->
  is_Some (attempt e sent (INSERT_audit (VStr ev) p (Int t)) d).
Proof.
  intros Hup Hev Hp [t' Ht]. unfold attempt. rewrite Hup.
  unfold exec, audit_row_of, text_param. cbn [pg_text ToString].
  rewrite Hev, Hp, Ht. cbn. eauto.
Qed.

End Store.

(** ** The ledger writes *)

Section Ledger.

Variable NumberToString : Rendering.
Variable API_SECRET : string.
Variable StringToNumber : string -> num.

Local Abbreviation attempt := (attempt NumberToString).
Local Abbreviation request_ts := (request_ts StringToNumber).
Local Abbreviation supplied_sig := (supplied_sig NumberToString).
Local Abbreviation expected_sig := (expected_sig NumberToString API_SECRET StringToNumber).
Local Abbreviation passes_gate := (passes_gate NumberToString API_SECRET StringToNumber).
Local Abbreviation birth_cert_id := (birth_cert_id NumberToString).
Local Abbreviation birth_insert := (birth_insert StringToNumber).
Local Abbreviation transfer_insert := (transfer_insert StringToNumber).
Local Abbreviation storable_birth := (storable_birth NumberToString StringToNumber).
Local Abbreviation route := (route NumberToString API_SECRET StringToNumber).
Local Abbreviation birth := (birth NumberToString API_SECRET StringToNumber).
Local Abbreviation transfer := (transfer NumberToString API_SECRET StringToNumber).

(** Only a request that passes the gate is answered with [ok: true]. *)
Lemma ok_passes_gate (op : operation) (req : option body) (e : Env) (w w' : World) (r : response) :
  route op req e w = (Val r, w') -> ok (json r) = true ->
  passes_gate op (default ∅ req) e w.
Proof.
  intros H Hok.
  destruct (freshb (server_time e w) (request_ts (default ∅ req))) eqn:Hf.
  - destruct (decide (supplied_sig (default ∅ req) = expected_sig op (default ∅ req)))
      as [Hs | Hs].
    + split; [now apply freshb_spec | assumption].
    + rewrite route_bad_sig in H by assumption.
      injection H as <- _. discriminate.
  - rewrite route_stale in H by assumption.
    injection H as <- _. discriminate.
Qed.

Lemma birth_success_inv (req : option body) (e : Env) (w w' : World) :
  let b := default ∅ req in
  let t := Date_now e (S (ticks w)) / 1000 in
  let q1 := birth_insert b t in
  let q2 := INSERT_audit (VStr "birth") b (Int t) in
  birth req e w = (Val success, w') ->
  exists d1 d2,
    attempt e (issued w) q1 (db w) = Some d1
    /\ attempt e (issued w ++ [q1]) q2 d1 = Some d2
    /\ w' = mkWorld d2 (S (S (ticks w))) ((issued w ++ [q1]) ++ [q2]).
Proof.
  intros b t q1 q2 H.
  assert (Ha : passes_gate Birth b e w) by (apply (ok_passes_gate Birth) in H; auto).
  rewrite birth_gated_run in H by exact Ha. fold b t q1 q2 in H.
  destruct (attempt e (issued w) q1 (db w)) as [d1|]; [|discriminate].
  destruct (attempt e (issued w ++ [q1]) q2 d1) as [d2|] eqn:E2; [|discriminate].
  exists d1, d2. injection H as <-. now repeat split.
Qed.

Lemma transfer_success_inv (req : option body) (e : Env) (w w' : World) :
  let b := default ∅ req in
  let t := Date_now e (S (ticks w)) / 1000 in
  let q1 := transfer_insert b in
  let q2 := INSERT_audit (VStr "transfer") b (Int t) in
  transfer req e w = (Val success, w') ->
  exists d1 d2,
    attempt e (issued w) q1 (db w) = Some d1
    /\ attempt e (issued w ++ [q1]) q2 d1 = Some d2
    /\ w' = mkWorld d2 (S (S (ticks w))) ((issued w ++ [q1]) ++ [q2]).
Proof.
  intros b t q1 q2 H.
  assert (Ha : passes_gate Transfer b e w) by (apply (ok_passes_gate Transfer) in H; auto).
  rewrite transfer_gated_run in H by exact Ha. fold b t q1 q2 in H.
  destruct (attempt e (issued w) q1 (db w)) as [d1|]; [|discriminate].
  destruct (attempt e (issued w ++ [q1]) q2 d1) as [d2|] eqn:E2; [|discriminate].
  exists d1, d2. injection H as <-. now repeat split.
Qed.

(** A birth past the gate succeeds as soon as the pool is up for its two
    statements and the database accepts their parameters; what is already
    stored plays no part. *)
Lemma birth_runs (req : option body) (e : Env) (w : World) :
  let b := default ∅ req in
  let t := Date_now e (S (ticks w)) / 1000 in
  passes_gate Birth b e w -> pool_up e w 2 -> storable_birth b t ->
  exists w', birth req e w = (Val success, w').
Proof.
  intros b t Ha Hup [Hbinds Hjson].
  rewrite birth_gated_run by exact Ha. fold b t.
  destruct (attempt_birth_insert_runs NumberToString StringToNumber
              e (issued w) b t (db w)) as [d1 ->].
  { rewrite <- (Nat.add_0_r (length (issued w))). apply Hup. lia. }
  { assumption. }
  destruct (attempt_audit_insert_runs NumberToString e (issued w ++ [birth_insert b t])
              "birth" b t d1) as [d2 ->].
  { rewrite length_app. apply Hup. simpl. lia. }
  { reflexivity. }
  { assumption. }
  { now apply birth_binds_fits in Hbinds as (_ & _ & _ & H). }
  eauto.
Qed.

(** A birth under an identifier that is already stored leaves the rows of
    [births] as they are, whatever it is answered. *)
Lemma birth_under_stored_id (cid : string) (req : option body) (e : Env) (w : World) :
  birth_cert_id (default ∅ req) = Some cid ->
  stored_under cid (rows (births_tbl (db w))) <> [] ->
  rows (births_tbl (db (snd (birth req e w)))) = rows (births_tbl (db w)).
Proof.
  intros Hc Hstored. change (birth req e w) with (route Birth req e w).
  destruct (freshb (server_time e w) (request_ts (default ∅ req))) eqn:Hf;
    [| now rewrite route_stale].
  destruct (decide (supplied_sig (default ∅ req) = expected_sig Birth (default ∅ req)))
    as [Hs | Hs]; [| now rewrite route_bad_sig].
  unfold route.
  assert (Ha : passes_gate Birth (default ∅ req) e w)
    by (split; [now apply freshb_spec | assumption]).
  rewrite birth_gated_run by exact Ha.
  destruct (attempt e (issued w) _ (db w)) as [d1|] eqn:Hq1; [| reflexivity].
  apply attempt_birth_insert in Hq1 as (_ & _ & r & _ & Hrows1).
  rewrite Hc in Hrows1. apply conflicts_stored_under in Hstored.
  rewrite Hstored in Hrows1.
  destruct (attempt e (issued w ++ _) _ d1) as [d2|] eqn:Hq2; [| assumption].
  apply attempt_audit_insert in Hq2 as (Hb2 & _ & _).
  cbn [snd db]. now rewrite Hb2.
Qed.


(** C10.  A birth whose [cert_id] field is absent or falsy is stored with
    a NULL certificate identifier, and every such request answered with
    success appends a fresh row to [births], whatever the table holds: a
    NULL never conflicts.  The UNIQUE constraint on the identifiers that
    are present is kept. *)
Theorem null_cert_id_always_inserts
    (req : option body) (e : Env) (w w' : World) :
  truthy (default ∅ req).["cert_id"] = false ->
  birth req e w = (Val success, w') ->
  birth_cert_id (default ∅ req) = None
  /\ (exists row,
        births.cert_id row = None
        /\ rows (births_tbl (db w')) = rows (births_tbl (db w)) ++ [row])
  /\ (cert_unique (rows (births_tbl (db w))) ->
      cert_unique (rows (births_tbl (db w')))).
Proof.
  intros Hfalsy H.
  assert (Hnull : birth_cert_id (default ∅ req) = None).
  { unfold birth_cert_id, or_else. now rewrite Hfalsy. }
  split; [assumption |].
  apply birth_success_inv in H as (d1 & d2 & Hq1 & Hq2 & ->).
  apply attempt_birth_insert in Hq1 as (_ & _ & r & Hr & Hrows1).
  apply attempt_audit_insert in Hq2 as (Hb2 & _ & _).
  rewrite Hnull in Hr, Hrows1. cbn [conflicts] in Hrows1. cbn [db].
  rewrite Hb2, Hrows1. split.
  - exists r. now split.
  - intros Huniq. apply cert_unique_snoc; [assumption | now rewrite Hr].
Qed.

(** C7.  The transfer route never deduplicates: two submissions of one
    payload that are both answered with success append two rows to
    [transfers], equal in every column but the serial id.  The only
    statements sent are the two inserts of each submission: no earlier
    transfer or owner is looked up. *)
Theorem transfer_no_dedup
    (req : option body) (e : Env) (w w1 w2 : World) :
  let b := default ∅ req in
  transfer req e w = (Val success, w1) ->
  transfer req e w1 = (Val success, w2) ->
  exists r1 r2 t1 t2,
    rows (transfers_tbl (db w2)) = rows (transfers_tbl (db w)) ++ [r1; r2]
    /\ transfers.id r1 <> transfers.id r2
    /\ transfers.sid r1 = transfers.sid r2
    /\ transfers.from_owner r1 = transfers.from_owner r2
    /\ transfers.to_owner r1 = transfers.to_owner r2
    /\ transfers.ts r1 = transfers.ts r2
    /\ issued w2
       = issued w
         ++ [transfer_insert b; INSERT_audit (VStr "transfer") b (Int t1);
             transfer_insert b; INSERT_audit (VStr "transfer") b (Int t2)].
Proof.
  intros b H1 H2.
  apply transfer_success_inv in H1 as (d1 & d2 & Hq1 & Hq2 & ->).
  apply transfer_success_inv in H2 as (d3 & d4 & Hq3 & Hq4 & ->).
  cbn [db issued ticks] in *. fold b in Hq1, Hq2, Hq3, Hq4 |- *.
  apply attempt_transfer_insert in Hq1 as (_ & _ & ts1 & Hts1 & Hseq1 & Hrows1).
  apply attempt_audit_insert in Hq2 as (_ & Ht2 & _).
  apply attempt_transfer_insert in Hq3 as (_ & _ & ts3 & Hts3 & Hseq3 & Hrows3).
  apply attempt_audit_insert in Hq4 as (_ & Ht4 & _).
  rewrite Ht2, Hseq1 in Hrows3. rewrite Ht4, Hrows3, Hrows1.
  assert (ts3 = ts1) as -> by congruence.
  eexists _, _, _, _. split; [now rewrite <- app_assoc |].
  cbn. repeat split; try lia.
  now rewrite <- !app_assoc.
Qed.

(** C8.  A birth or a transfer answered with success has appended exactly
    one row to [audit], carrying the event kind of the route and the
    request body as received.  For a birth this holds as well when the row
    insert was a no-op: if the certificate identifier was already stored,
    [births] is unchanged and the audit row is appended all the same. *)
Theorem accepted_write_audited
    (op : operation) (req : option body) (e : Env) (w w' : World) :
  op <> Verify ->
  route op req e w = (Val success, w') ->
  (exists id ts,
     rows (audit_tbl (db w'))
     = rows (audit_tbl (db w))
       ++ [audit.Row id (Some (event_kind op)) (Some (default ∅ req)) (Some ts)])
  /\ (forall cid,
        op = Birth ->
        birth_cert_id (default ∅ req) = Some cid ->
        stored_under cid (rows (births_tbl (db w))) <> [] ->
        rows (births_tbl (db w')) = rows (births_tbl (db w))).
Proof.
  intros Hop H. destruct op; [| |congruence]; unfold route in H.
  - apply birth_success_inv in H as (d1 & d2 & Hq1 & Hq2 & ->).
    apply attempt_birth_insert in Hq1 as (_ & Ha1 & r & _ & Hrows1).
    apply attempt_audit_insert in Hq2 as (Hb2 & _ & ts & _ & Hrows).
    cbn [db event_kind]. split.
    + rewrite Hrows, Ha1. eauto.
    + intros cid _ Hc Hstored. rewrite Hb2, Hrows1, Hc.
      apply conflicts_stored_under in Hstored. now rewrite Hstored.
  - apply transfer_success_inv in H as (d1 & d2 & Hq1 & Hq2 & ->).
    apply attempt_transfer_insert in Hq1 as (_ & Ha1 & _).
    apply attempt_audit_insert in Hq2 as (_ & _ & ts & _ & Hrows).
    cbn [db event_kind]. split; [| discriminate].
    rewrite Hrows, Ha1. eauto.
Qed.

(** The UNIQUE constraint is an invariant of the three routes, whatever
    they answer. *)
Lemma route_keeps_cert_unique
    (op : operation) (req : option body) (e : Env) (w : World) :
  cert_unique (rows (births_tbl (db w))) ->
  cert_unique (rows (births_tbl (db (snd (route op req e w))))).
Proof.
  intros Huniq.
  destruct (freshb (server_time e w) (request_ts (default ∅ req))) eqn:Hf;
    [| now rewrite route_stale].
  destruct (decide (supplied_sig (default ∅ req) = expected_sig op (default ∅ req)))
    as [Hs | Hs]; [| now rewrite route_bad_sig].
  assert (Ha : passes_gate op (default ∅ req) e w)
    by (split; [now apply freshb_spec | assumption]).
  destruct op; unfold route.
  - rewrite birth_gated_run by exact Ha.
    destruct (attempt e (issued w) _ (db w)) as [d1|] eqn:Hq1; [| assumption].
    apply attempt_birth_insert in Hq1 as (_ & _ & r & Hr & Hrows1).
    assert (Huniq1 : cert_unique (rows (births_tbl d1))).
    { rewrite Hrows1.
      destruct (conflicts (birth_cert_id (default ∅ req)) (rows (births_tbl (db w))))
        eqn:Hconf; [assumption |].
      apply cert_unique_snoc; [assumption | now rewrite Hr]. }
    destruct (attempt e (issued w ++ _) _ d1) as [d2|] eqn:Hq2; [| assumption].
    apply attempt_audit_insert in Hq2 as (Hb2 & _ & _).
    cbn [snd db]. now rewrite Hb2.
  - rewrite transfer_gated_run by exact Ha.
    destruct (attempt e (issued w) _ (db w)) as [d1|] eqn:Hq1; [| assumption].
    apply attempt_transfer_insert in Hq1 as (Hb1 & _ & _).
    destruct (attempt e (issued w ++ _) _ d1) as [d2|] eqn:Hq2;
      [| cbn [snd db]; now rewrite Hb1].
    apply attempt_audit_insert in Hq2 as (Hb2 & _ & _).
    cbn [snd db]. now rewrite Hb2, Hb1.
  - rewrite verify_gated_run by exact Ha.
    repeat (match goal with
            | |- context [match ?x with _ => _ end] => destruct x
            end); assumption.
Qed.

Lemma initSchema_cert_unique : cert_unique (rows (births_tbl initSchema)).
Proof. apply NoDup_nil_2. Qed.

End Ledger.

(** ** Verification *)

Lemma filter_head_first (c : string) (rs : list births.row) (row : births.row)
    (rest : list births.row) :
  stored_under c rs = row :: rest -> first_under c rs row.
Proof.
  unfold stored_under, first_under. induction rs as [|r rs IH]; [discriminate |].
  rewrite filter_cons. destruct (decide (births.cert_id r = Some c)) as [Hr | Hr].
  - intros H. injection H as -> _. exists [], rs. repeat split; [assumption |].
    intros r' Hin. now apply not_elem_of_nil in Hin.
  - intros H. destruct (IH H) as (pre & post & -> & Hrow & Hpre).
    exists (r :: pre), post. repeat split; [assumption |].
    intros r' Hin. apply elem_of_cons in Hin as [-> | Hin]; auto.
Qed.

Lemma first_under_unique (c : string) (rs : list births.row) (r1 r2 : births.row) :
  first_under c rs r1 -> first_under c rs r2 -> r1 = r2.
Proof.
  intros (pre1 & post1 & -> & Hr1 & Hpre1) (pre2 & post2 & Heq & Hr2 & Hpre2).
  revert pre2 Heq Hpre2.
  induction pre1 as [|a pre1 IH]; intros [|a2 pre2] Heq Hpre2; simpl in Heq.
  - congruence.
  - injection Heq as <- _. exfalso. apply (Hpre2 r1); [left | assumption].
  - injection Heq as -> _. exfalso. apply (Hpre1 r2); [left | assumption].
  - injection Heq as <- Heq. apply (IH (fun r H => Hpre1 r (list_elem_of_further _ _ _ H)) pre2 Heq).
    intros r H. apply Hpre2. now right.
Qed.

Lemma truthy_column (h : option string) :
  truthy (column h) = true <-> exists s, h = Some s /\ s <> "".
Proof.
  destruct h as [s|]; simpl.
  - rewrite negb_true_iff. split.
    + intros H. exists s. split; [reflexivity |]. intros ->. discriminate.
    + intros (s' & Hs & Hne). injection Hs as <-.
      apply not_true_is_false. intros H. now apply String.eqb_eq in H.
  - split; [discriminate | intros (s & Hs & _); discriminate].
Qed.

Lemma strict_neq_string (a : value) (s : string) :
  strict_neq a (VStr s) = true <-> a <> VStr s.
Proof.
  destruct a as [| |x|[z|]|x]; simpl;
    rewrite ?negb_true_iff, ?bool_decide_eq_false; try tauto.
  all: split; [discriminate | reflexivity].
Qed.

Lemma hashes_differ_spec (asserted : value) (stored : option string) :
  truthy asserted && truthy (column stored) && strict_neq asserted (column stored) = true
  <-> hashes_differ asserted stored.
Proof.
  unfold hashes_differ. rewrite !andb_true_iff, truthy_column. split.
  - intros [[Ha (s & -> & Hs)] Hn]. split; [assumption |].
    exists s. repeat split; [assumption |]. now apply strict_neq_string.
  - intros [Ha (s & -> & Hs & Hn)]. repeat split; [assumption | eauto |].
    now apply strict_neq_string.
Qed.

Section Verification.

Variable NumberToString : Rendering.
Variable API_SECRET : string.
Variable StringToNumber : string -> num.

Local Abbreviation pg_text := (pg_text NumberToString).
Local Abbreviation passes_gate := (passes_gate NumberToString API_SECRET StringToNumber).
Local Abbreviation lookup_binds := (lookup_binds NumberToString).
Local Abbreviation identified_by := (identified_by NumberToString).
Local Abbreviation first_identified := (first_identified NumberToString).
Local Abbreviation verify := (verify NumberToString API_SECRET StringToNumber).


End Verification.

(** ** What the signature binds *)

Section Binding.

Variable NumberToString : Rendering.
Variable API_SECRET : string.
Variable StringToNumber : string -> num.

Local Abbreviation join_elem := (join_elem NumberToString).
Local Abbreviation join := (join NumberToString).
Local Abbreviation verifySig := (verifySig NumberToString).
Local Abbreviation request_ts := (request_ts StringToNumber).
Local Abbreviation supplied_sig := (supplied_sig NumberToString).
Local Abbreviation signed_string := (signed_string NumberToString API_SECRET StringToNumber).
Local Abbreviation expected_sig := (expected_sig NumberToString API_SECRET StringToNumber).
Local Abbreviation route := (route NumberToString API_SECRET StringToNumber).

Lemma signed_string_middle (op : operation) (b : body)
    (pre post : list value) (x : value) :
  field_tuple op b = pre ++ x :: post ->
  exists before after,
    forall b' y,
      request_ts b' = request_ts b ->
      field_tuple op b' = pre ++ y :: post ->
      signed_string op b' = before +:+ join_elem y +:+ after.
Proof.
  intros _.
  destruct (concat_sep_middle "|"
              (map join_elem (VNum (request_ts b) :: pre))
              (map join_elem (post ++ [VStr API_SECRET]))) as (before & after & H).
  exists before, after. intros b' y Hts Hb'.
  unfold signed_string, join. rewrite Hts, Hb', <- H.
  f_equal. cbn [map app]. f_equal.
  rewrite <- app_assoc. now rewrite map_app.
Qed.

Lemma verifySig_digest (ts : num) (core sig : string) :
  verifySig API_SECRET ts core sig = true
  <-> md5 (NumberToString ts +:+ "|" +:+ core +:+ "|" +:+ API_SECRET) = sig.
Proof. unfold verifySig. apply eqb_string_true. Qed.

(** C5, amended.  Take two requests of one operation with the same
    timestamp whose ordered field tuples differ in exactly one field.  If
    that field renders differently under the join, the two signed strings
    differ, and unless MD5 takes the same value on these two different
    strings a signature that verifies for one request does not verify for
    the other: sent with both requests at a fresh timestamp, a signature
    that the route does not refuse for the first is answered "bad sig"
    for the second.  If the field renders alike (absent, null and the
    empty string do; so do a number or a boolean and its text), the two
    requests accept exactly the same signatures, and the route answers
    "bad sig" to both or to neither. *)
Theorem signature_binds_rendered_fields
    (op : operation) (b1 b2 : body) (pre post : list value) (x y : value)
    (sig : string) (e : Env) (w : World) :
  request_ts b1 = request_ts b2 ->
  field_tuple op b1 = pre ++ x :: post ->
  field_tuple op b2 = pre ++ y :: post ->
  (join_elem x <> join_elem y ->
   signed_string op b1 <> signed_string op b2
   /\ (md5 (signed_string op b1) <> md5 (signed_string op b2) ->
       (verifySig API_SECRET (request_ts b1) (join "|" (field_tuple op b1)) sig = true ->
        verifySig API_SECRET (request_ts b2) (join "|" (field_tuple op b2)) sig = false)
       /\ (supplied_sig b1 = supplied_sig b2 ->
           fresh_at (server_time e w) (request_ts b1) ->
           fst (route op (Some b1) e w) <> Val (bad "bad sig") ->
           fst (route op (Some b2) e w) = Val (bad "bad sig"))))
  /\ (join_elem x = join_elem y ->
      verifySig API_SECRET (request_ts b1) (join "|" (field_tuple op b1)) sig
      = verifySig API_SECRET (request_ts b2) (join "|" (field_tuple op b2)) sig
      /\ (supplied_sig b1 = supplied_sig b2 ->
          (fst (route op (Some b1) e w) = Val (bad "bad sig")
           <-> fst (route op (Some b2) e w) = Val (bad "bad sig")))).
Proof.
  intros Hts H1 H2.
  destruct (signed_string_middle op b1 pre post x H1) as (before & after & Hmid).
  pose proof (Hmid b1 x eq_refl H1) as Hs1.
  pose proof (Hmid b2 y (eq_sym Hts) H2) as Hs2.
  split.
  - intros Hxy. split.
    + rewrite Hs1, Hs2. intros Heq.
      apply append_cancel_l, append_cancel_r in Heq. contradiction.
    + intros Hmd5. split.
      * intros Hv. apply not_true_is_false. intros Hv'.
        apply verifySig_digest in Hv, Hv'.
        rewrite <- (signed_string_unfold NumberToString API_SECRET StringToNumber op) in Hv, Hv'.
        congruence.
      * intros Hsig Hf Hgood.
        apply (bad_sig_iff NumberToString API_SECRET StringToNumber op (Some b2) e w);
          [change (default ∅ (Some b2)) with b2; now rewrite <- Hts |].
        change (default ∅ (Some b2)) with b2. unfold expected_sig. intros Hsig2. apply Hgood.
        apply (bad_sig_iff NumberToString API_SECRET StringToNumber op (Some b1) e w);
          [exact Hf |].
        change (default ∅ (Some b1)) with b1. unfold expected_sig. congruence.
  - intros Hxy.
    assert (Hsame : signed_string op b1 = signed_string op b2)
      by now rewrite Hs1, Hs2, Hxy.
    split.
    + unfold verifySig.
      rewrite <- !(signed_string_unfold NumberToString API_SECRET StringToNumber op).
      now rewrite Hsame.
    + intros Hsig.
      destruct (freshb (server_time e w) (request_ts b1)) eqn:Hf.
      * assert (Hf1 : fresh_at (server_time e w) (request_ts b1)) by now apply freshb_spec.
        assert (Hf2 : fresh_at (server_time e w) (request_ts b2)) by now rewrite <- Hts.
        rewrite (bad_sig_iff NumberToString API_SECRET StringToNumber op (Some b1) e w Hf1),
          (bad_sig_iff NumberToString API_SECRET StringToNumber op (Some b2) e w Hf2).
        change (default ∅ (Some b1)) with b1. change (default ∅ (Some b2)) with b2.
        unfold expected_sig. now rewrite Hsig, Hsame.
      * rewrite (route_stale NumberToString API_SECRET StringToNumber op (Some b1) e w)
          by exact Hf.
        rewrite (route_stale NumberToString API_SECRET StringToNumber op (Some b2) e w)
          by (change (default ∅ (Some b2)) with b2; now rewrite <- Hts).
        cbn [fst]. split; discriminate.
Qed.

End Binding.

(** ** The properties at work on the sample requests *)

Example md5_empty : md5 "" = "d41d8cd98f00b204e9800998ecf8427e".
Proof. vm_compute. reflexivity. Qed.

Example md5_abc : md5 "abc" = "900150983cd24fb0d6963f7d28e17f72".
Proof. vm_compute. reflexivity. Qed.

Example md5_two_blocks :
  md5 "12345678901234567890123456789012345678901234567890123456789012345678901234567890"
  = "57edf4a22be3c955ac49da2e2107b67a".
Proof. vm_compute. reflexivity. Qed.

Example sample_birth_signed_string :
  signed_string decimal_rendering sample_secret decimal_text Birth sample_birth
  = "1700000000|C1|1000|P1|P2|3|2|H1|OwnerA|s3cret".
Proof. vm_compute. reflexivity. Qed.

Example sample_transfer_signed_string :
  signed_string decimal_rendering sample_secret decimal_text Transfer sample_transfer
  = "1700000000|K1|OwnerA|OwnerB|s3cret".
Proof. vm_compute. reflexivity. Qed.

Example sample_verify_signed_string :
  signed_string decimal_rendering sample_secret decimal_text Verify sample_verify
  = "1700000000|C1|H1|s3cret".
Proof. vm_compute. reflexivity. Qed.

(** Ten seconds after signing the sample birth is accepted; 400 seconds
    after, it is stale. *)
Example sample_birth_accepted :
  fst (birth decimal_rendering sample_secret decimal_text (Some sample_birth) sample_env sample_world)
  = Val success.
Proof. vm_compute. reflexivity. Qed.

Example sample_birth_late :
  fst (birth decimal_rendering sample_secret decimal_text (Some sample_birth) late_env sample_world)
  = Val (bad "stale ts").
Proof. vm_compute. reflexivity. Qed.

Lemma stale_rejected_before_storage_witness :
  ~ fresh_at (server_time late_env sample_world)
      (request_ts decimal_text sample_birth)
  /\ supplied_sig decimal_rendering sample_birth
     = expected_sig decimal_rendering sample_secret decimal_text Birth sample_birth
  /\ exists w',
       route decimal_rendering sample_secret decimal_text Birth (Some sample_birth) late_env sample_world
       = (Val (bad "stale ts"), w')
       /\ issued w' = issued sample_world /\ db w' = db sample_world.
Proof.
  assert (H : ~ fresh_at (server_time late_env sample_world)
                (request_ts decimal_text sample_birth)).
  { intros Hf. apply freshb_spec in Hf. vm_compute in Hf. discriminate. }
  split; [exact H |]. split; [vm_compute; reflexivity |].
  exact (stale_rejected_before_storage decimal_rendering sample_secret decimal_text Birth
           (Some sample_birth) late_env sample_world H).
Defined.

Lemma missing_ts_is_stale_witness :
  truthy sample_transfer_no_ts.["ts"] = false
  /\ 300 < server_time sample_env sample_world
  /\ request_ts decimal_text sample_transfer_no_ts = Int 0
  /\ exists w',
       route decimal_rendering sample_secret decimal_text Transfer (Some sample_transfer_no_ts)
         sample_env sample_world
       = (Val (bad "stale ts"), w')
       /\ issued w' = issued sample_world /\ db w' = db sample_world.
Proof.
  assert (H1 : truthy sample_transfer_no_ts.["ts"] = false) by (vm_compute; reflexivity).
  assert (H2 : 300 < server_time sample_env sample_world) by (vm_compute; reflexivity).
  split; [exact H1 |]. split; [exact H2 |].
  exact (missing_ts_is_stale decimal_rendering sample_secret decimal_text Transfer
           (Some sample_transfer_no_ts) sample_env sample_world H1 H2).
Defined.

Lemma signature_check_witness :
  fresh_at (server_time sample_env sample_world) (request_ts decimal_text sample_birth)
  /\ (verifySig decimal_rendering sample_secret (request_ts decimal_text sample_birth)
        (join decimal_rendering "|" (field_tuple Birth sample_birth)) (supplied_sig decimal_rendering sample_birth) = true
      <-> supplied_sig decimal_rendering sample_birth
          = md5 (signed_string decimal_rendering sample_secret decimal_text Birth sample_birth))
  /\ (fst (route decimal_rendering sample_secret decimal_text Birth (Some sample_birth)
             sample_env sample_world) = Val (bad "bad sig")
      <-> supplied_sig decimal_rendering sample_birth
          <> md5 (signed_string decimal_rendering sample_secret decimal_text Birth sample_birth)).
Proof.
  assert (H : fresh_at (server_time sample_env sample_world)
                (request_ts decimal_text sample_birth)).
  { apply freshb_spec. vm_compute. reflexivity. }
  split; [exact H |].
  exact (signature_check decimal_rendering sample_secret decimal_text Birth (Some sample_birth)
           sample_env sample_world H).
Defined.

Lemma sample_gate_after_birth :
  passes_gate decimal_rendering sample_secret decimal_text Birth sample_birth sample_env sample_after_birth.
Proof. split; [apply freshb_spec |]; vm_compute; reflexivity. Qed.

Lemma sample_pool_up (w : World) (n : nat) : pool_up sample_env w n.
Proof. intros i _. reflexivity. Qed.

Lemma sample_birth_storable (w : World) :
  storable_birth decimal_rendering decimal_text sample_birth
    (Date_now sample_env (S (ticks w)) / 1000).
Proof. split; [eexists |]; vm_compute; reflexivity. Qed.


Lemma null_cert_id_always_inserts_witness :
  truthy sample_birth_anonymous.["cert_id"] = false
  /\ birth decimal_rendering sample_secret decimal_text (Some sample_birth_anonymous)
       sample_env sample_after_anonymous
     = (Val success, sample_after_anonymous_twice)
  /\ birth_cert_id decimal_rendering sample_birth_anonymous = None
  /\ (exists row,
        births.cert_id row = None
        /\ rows (births_tbl (db sample_after_anonymous_twice))
           = rows (births_tbl (db sample_after_anonymous)) ++ [row])
  /\ (cert_unique (rows (births_tbl (db sample_after_anonymous))) ->
      cert_unique (rows (births_tbl (db sample_after_anonymous_twice)))).
Proof.
  assert (H1 : truthy sample_birth_anonymous.["cert_id"] = false)
    by (vm_compute; reflexivity).
  assert (H2 : birth decimal_rendering sample_secret decimal_text (Some sample_birth_anonymous)
                 sample_env sample_after_anonymous
               = (Val success, sample_after_anonymous_twice))
    by (vm_compute; reflexivity).
  split; [exact H1 |]. split; [exact H2 |].
  exact (null_cert_id_always_inserts decimal_rendering sample_secret decimal_text
           (Some sample_birth_anonymous) sample_env sample_after_anonymous
           sample_after_anonymous_twice H1 H2).
Defined.

(** Submitted twice, the birth without identifier is stored twice. *)
Example anonymous_births_pile_up :
  map births.cert_id (rows (births_tbl (db sample_after_anonymous_twice)))
  = [None; None].
Proof. vm_compute. reflexivity. Qed.

Lemma transfer_no_dedup_witness :
  transfer decimal_rendering sample_secret decimal_text (Some sample_transfer) sample_env sample_world
  = (Val success, sample_after_transfer)
  /\ transfer decimal_rendering sample_secret decimal_text (Some sample_transfer) sample_env
       sample_after_transfer
     = (Val success, sample_after_transfers)
  /\ exists r1 r2 t1 t2,
       rows (transfers_tbl (db sample_after_transfers))
       = rows (transfers_tbl (db sample_world)) ++ [r1; r2]
       /\ transfers.id r1 <> transfers.id r2
       /\ transfers.sid r1 = transfers.sid r2
       /\ transfers.from_owner r1 = transfers.from_owner r2
       /\ transfers.to_owner r1 = transfers.to_owner r2
       /\ transfers.ts r1 = transfers.ts r2
       /\ issued sample_after_transfers
          = issued sample_world
            ++ [transfer_insert decimal_text sample_transfer;
                INSERT_audit (VStr "transfer") sample_transfer (Int t1);
                transfer_insert decimal_text sample_transfer;
                INSERT_audit (VStr "transfer") sample_transfer (Int t2)].
Proof.
  assert (H1 : transfer decimal_rendering sample_secret decimal_text (Some sample_transfer)
                 sample_env sample_world
               = (Val success, sample_after_transfer)) by (vm_compute; reflexivity).
  assert (H2 : transfer decimal_rendering sample_secret decimal_text (Some sample_transfer)
                 sample_env sample_after_transfer
               = (Val success, sample_after_transfers)) by (vm_compute; reflexivity).
  split; [exact H1 |]. split; [exact H2 |].
  exact (transfer_no_dedup decimal_rendering sample_secret decimal_text (Some sample_transfer)
           sample_env sample_world sample_after_transfer sample_after_transfers
           H1 H2).
Defined.

Lemma accepted_write_audited_witness :
  Birth <> Verify
  /\ (exists w',
        route decimal_rendering sample_secret decimal_text Birth (Some sample_birth)
          sample_env sample_after_birth = (Val success, w')
        /\ (exists id ts,
              rows (audit_tbl (db w'))
              = rows (audit_tbl (db sample_after_birth))
                ++ [audit.Row id (Some "birth") (Some sample_birth) (Some ts)])
        /\ (forall cid,
              Birth = Birth ->
              birth_cert_id decimal_rendering sample_birth = Some cid ->
              stored_under cid (rows (births_tbl (db sample_after_birth))) <> [] ->
              rows (births_tbl (db w')) = rows (births_tbl (db sample_after_birth)))).
Proof.
  assert (H0 : Birth <> Verify) by discriminate.
  split; [exact H0 |].
  eexists. split; [vm_compute; reflexivity |].
  refine (accepted_write_audited decimal_rendering sample_secret decimal_text Birth
            (Some sample_birth) sample_env sample_after_birth _ H0 _).
  vm_compute. reflexivity.
Defined.

(** The second sample birth left one certificate and two audit rows. *)
Example sample_birth_twice :
  let w2 := snd (birth decimal_rendering sample_secret decimal_text (Some sample_birth)
                   sample_env sample_after_birth) in
  length (rows (births_tbl (db w2))) = 1%nat
  /\ map audit.event (rows (audit_tbl (db w2))) = [Some "birth"; Some "birth"].
Proof. vm_compute. split; reflexivity. Qed.


(** The stored certificate is found and handed back whole. *)
Example sample_verify_verified :
  fst (verify decimal_rendering sample_secret decimal_text (Some sample_verify) sample_env
         sample_after_birth)
  = Val (verified (births.Row 1 None (Some "P1") (Some "P2") (Some 3) (Some 2)
                     (Some "H1") (Some "C1") (Some 1000) (Some "OwnerA")
                     (Some 1700000010))).
Proof. vm_compute. reflexivity. Qed.

(** C5 as stated fails: the sample birth and the same request with the
    generation sent as the text "3" instead of the number 3 differ in
    exactly one signed field, yet one signature verifies for both and both
    are accepted. *)
Lemma signature_ignores_field_type :
  differ_in_one (field_tuple Birth sample_birth)
                (field_tuple Birth sample_birth_text_gen)
  /\ request_ts decimal_text sample_birth = request_ts decimal_text sample_birth_text_gen
  /\ verifySig decimal_rendering sample_secret (request_ts decimal_text sample_birth)
       (join decimal_rendering "|" (field_tuple Birth sample_birth))
       "ccd717fc92d5d3a9a614728a6bc3d4f2" = true
  /\ verifySig decimal_rendering sample_secret (request_ts decimal_text sample_birth_text_gen)
       (join decimal_rendering "|" (field_tuple Birth sample_birth_text_gen))
       "ccd717fc92d5d3a9a614728a6bc3d4f2" = true
  /\ fst (birth decimal_rendering sample_secret decimal_text (Some sample_birth)
            sample_env sample_world) = Val success
  /\ fst (birth decimal_rendering sample_secret decimal_text (Some sample_birth_text_gen)
            sample_env sample_world) = Val success.
Proof.
  split.
  - exists [VStr "C1"; VNum (Int 1000); VStr "P1"; VStr "P2"],
      (VNum (Int 3)), (VStr "3"), [VNum (Int 2); VStr "H1"; VStr "OwnerA"].
    repeat split; [vm_compute; reflexivity .. | discriminate].
  - repeat split; vm_compute; reflexivity.
Qed.

Lemma signature_binds_rendered_fields_witness :
  request_ts decimal_text sample_birth = request_ts decimal_text sample_birth_gen4
  /\ field_tuple Birth sample_birth
     = [VStr "C1"; VNum (Int 1000); VStr "P1"; VStr "P2"]
       ++ VNum (Int 3) :: [VNum (Int 2); VStr "H1"; VStr "OwnerA"]
  /\ field_tuple Birth sample_birth_gen4
     = [VStr "C1"; VNum (Int 1000); VStr "P1"; VStr "P2"]
       ++ VNum (Int 4) :: [VNum (Int 2); VStr "H1"; VStr "OwnerA"]
  /\ join_elem decimal_rendering (VNum (Int 3)) <> join_elem decimal_rendering (VNum (Int 4))
  /\ md5 (signed_string decimal_rendering sample_secret decimal_text Birth sample_birth)
     <> md5 (signed_string decimal_rendering sample_secret decimal_text Birth sample_birth_gen4)
  /\ verifySig decimal_rendering sample_secret (request_ts decimal_text sample_birth)
       (join decimal_rendering "|" (field_tuple Birth sample_birth))
       "ccd717fc92d5d3a9a614728a6bc3d4f2" = true
  /\ fst (route decimal_rendering sample_secret decimal_text Birth (Some sample_birth)
            sample_env sample_world) <> Val (bad "bad sig")
  /\ signed_string decimal_rendering sample_secret decimal_text Birth sample_birth
     <> signed_string decimal_rendering sample_secret decimal_text Birth sample_birth_gen4
  /\ verifySig decimal_rendering sample_secret (request_ts decimal_text sample_birth_gen4)
       (join decimal_rendering "|" (field_tuple Birth sample_birth_gen4))
       "ccd717fc92d5d3a9a614728a6bc3d4f2" = false
  /\ fst (route decimal_rendering sample_secret decimal_text Birth (Some sample_birth_gen4)
            sample_env sample_world) = Val (bad "bad sig").
Proof.
  assert (H0 : request_ts decimal_text sample_birth
               = request_ts decimal_text sample_birth_gen4) by (vm_compute; reflexivity).
  assert (H1 : field_tuple Birth sample_birth
               = [VStr "C1"; VNum (Int 1000); VStr "P1"; VStr "P2"]
                 ++ VNum (Int 3) :: [VNum (Int 2); VStr "H1"; VStr "OwnerA"])
    by (vm_compute; reflexivity).
  assert (H2 : field_tuple Birth sample_birth_gen4
               = [VStr "C1"; VNum (Int 1000); VStr "P1"; VStr "P2"]
                 ++ VNum (Int 4) :: [VNum (Int 2); VStr "H1"; VStr "OwnerA"])
    by (vm_compute; reflexivity).
  assert (H3 : join_elem decimal_rendering (VNum (Int 3))
               <> join_elem decimal_rendering (VNum (Int 4)))
    by (vm_compute; discriminate).
  assert (H4 : md5 (signed_string decimal_rendering sample_secret decimal_text Birth sample_birth)
               <> md5 (signed_string decimal_rendering sample_secret decimal_text Birth sample_birth_gen4))
    by (vm_compute; discriminate).
  assert (H5 : verifySig decimal_rendering sample_secret (request_ts decimal_text sample_birth)
                 (join decimal_rendering "|" (field_tuple Birth sample_birth))
                 "ccd717fc92d5d3a9a614728a6bc3d4f2" = true) by (vm_compute; reflexivity).
  assert (H6 : fst (route decimal_rendering sample_secret decimal_text Birth (Some sample_birth)
                      sample_env sample_world) <> Val (bad "bad sig"))
    by (vm_compute; discriminate).
  assert (H7 : supplied_sig decimal_rendering sample_birth
               = supplied_sig decimal_rendering sample_birth_gen4)
    by (vm_compute; reflexivity).
  assert (H8 : fresh_at (server_time sample_env sample_world)
                 (request_ts decimal_text sample_birth))
    by (apply freshb_spec; vm_compute; reflexivity).
  pose proof (signature_binds_rendered_fields decimal_rendering sample_secret decimal_text Birth
                sample_birth sample_birth_gen4 _ _ _ _
                "ccd717fc92d5d3a9a614728a6bc3d4f2" sample_env sample_world
                H0 H1 H2) as [Hdiff _].
  destruct (Hdiff H3) as [Hs Hv].
  destruct (Hv H4) as [Hsig Hroute].
  repeat (split; [assumption |]).
  split; [exact (Hsig H5) | exact (Hroute H7 H8 H6)].
Defined.

(** * Further properties of the server *)

(** ** The digest and the signature field *)

Lemma length_append (a b : string) :
  String.length (a +:+ b) = (String.length a + String.length b)%nat.
Proof.
  induction a as [|x a IH]; [reflexivity |].
  rewrite append_cons. cbn [String.length]. now rewrite IH.
Qed.

Lemma length_le_bytes (n : nat) (x : Z) : length (MD5.le_bytes n x) = n.
Proof. revert x. induction n as [|n IH]; intros x; simpl; [reflexivity | now rewrite IH]. Qed.

Lemma le_bytes_range (n : nat) (x : Z) :
  Forall (fun b => 0 <= b < 256) (MD5.le_bytes n x).
Proof.
  revert x. induction n as [|n IH]; intros x; simpl; constructor; [| apply IH].
  apply Z.mod_pos_bound. lia.
Qed.

Lemma hex_digit_ok (n : Z) : 0 <= n < 16 -> is_hex_char (MD5.hex_digit n) = true.
Proof.
  intros Hn. unfold MD5.hex_digit.
  assert (Hk : (Z.to_nat n < 16)%nat) by lia.
  revert Hk. generalize (Z.to_nat n) as k. intros k Hk.
  do 16 (destruct k as [|k]; [reflexivity |]). lia.
Qed.

Lemma hex_shape (bs : list Z) :
  Forall (fun b => 0 <= b < 256) bs ->
  String.length (MD5.hex bs) = (2 * length bs)%nat
  /\ forallb is_hex_char (list_ascii_of_string (MD5.hex bs)) = true.
Proof.
  induction 1 as [|b bs Hb _ [IHl IHc]]; [split; reflexivity |].
  cbn [MD5.hex fold_right]. fold (MD5.hex bs). split.
  - rewrite length_append, IHl. cbn [MD5.hex_byte String.length length]. lia.
  - rewrite list_ascii_append, forallb_app, IHc.
    cbn [MD5.hex_byte list_ascii_of_string forallb].
    rewrite !hex_digit_ok; [reflexivity | |].
    + apply Z.mod_pos_bound. lia.
    + split; [apply Z.div_pos; lia | apply Z.div_lt_upper_bound; lia].
Qed.

Lemma md5_is_md5_hex (s : string) : is_md5_hex (md5 s) = true.
Proof.
  unfold is_md5_hex, md5.
  destruct (hex_shape (MD5.digest (MD5.bytes_of_string s))) as [Hl Hc].
  - unfold MD5.digest. rewrite !Forall_app. repeat split; apply le_bytes_range.
  - rewrite Hl, Hc. unfold MD5.digest. now rewrite !length_app, !length_le_bytes.
Qed.

(** X1.  Whatever its input, the digest is a string of exactly 32
    lowercase hexadecimal digits. *)
Theorem md5_shape (s : string) :
  String.length (md5 s) = 32%nat
  /\ Forall (fun c => c ∈ list_ascii_of_string "0123456789abcdef")
       (list_ascii_of_string (md5 s)).
Proof.
  pose proof (md5_is_md5_hex s) as H. unfold is_md5_hex in H.
  apply andb_true_iff in H as [Hl Hc]. split; [now apply Nat.eqb_eq |].
  apply Forall_forall. intros c Hin.
  rewrite forallb_forall in Hc. apply list_elem_of_In in Hin.
  specialize (Hc c Hin). unfold is_hex_char in Hc.
  apply existsb_exists in Hc as (c' & Hin' & Heq).
  apply Ascii.eqb_eq in Heq. subst c'. now apply list_elem_of_In.
Qed.

Section Signatures.

Variable NumberToString : Rendering.
Variable API_SECRET : string.
Variable StringToNumber : string -> num.

Local Abbreviation request_ts := (request_ts StringToNumber).
Local Abbreviation supplied_sig := (supplied_sig NumberToString).
Local Abbreviation expected_sig := (expected_sig NumberToString API_SECRET StringToNumber).
Local Abbreviation route := (route NumberToString API_SECRET StringToNumber).

(** X2.  On each route, a request with a fresh timestamp whose signature
    differs from the expected digest is answered with status 400 and the
    reason "bad sig"; no statement is sent to the pool and the database
    is left as it was. *)
Theorem bad_sig_rejected_before_storage
    (op : operation) (req : option body) (e : Env) (w : World) :
  fresh_at (server_time e w) (request_ts (default ∅ req)) ->
  supplied_sig (default ∅ req) <> expected_sig op (default ∅ req) ->
  exists w',
    route op req e w = (Val (bad "bad sig"), w')
    /\ issued w' = issued w /\ db w' = db w.
Proof.
  intros Hf Hs. exists (tick w).
  rewrite route_bad_sig; [now repeat split | now apply freshb_spec | assumption].
Qed.

(** X3.  On each route, a fresh request whose [sig] field is absent or
    falsy, or is anything but 32 lowercase hexadecimal digits (a digest in
    upper case, say), is answered "bad sig" whatever the secret is. *)
Theorem malformed_sig_rejected
    (op : operation) (req : option body) (e : Env) (w : World) :
  fresh_at (server_time e w) (request_ts (default ∅ req)) ->
  truthy (default ∅ req).["sig"] = false
  \/ is_md5_hex (supplied_sig (default ∅ req)) = false ->
  exists w',
    route op req e w = (Val (bad "bad sig"), w')
    /\ issued w' = issued w /\ db w' = db w.
Proof.
  intros Hf Hsig. exists (tick w).
  rewrite route_bad_sig; [now repeat split | now apply freshb_spec |].
  assert (Hshape : is_md5_hex (supplied_sig (default ∅ req)) = false).
  { destruct Hsig as [Hfalsy | H]; [| exact H].
    unfold supplied_sig, or_else. now rewrite Hfalsy. }
  intros Heq. unfold expected_sig in Heq.
  rewrite Heq in Hshape. now rewrite md5_is_md5_hex in Hshape.
Qed.

End Signatures.

(** ** Every way a route can end *)

Section Outcomes.

Variable NumberToString : Rendering.
Variable API_SECRET : string.
Variable StringToNumber : string -> num.

Local Abbreviation text_param := (text_param NumberToString).
Local Abbreviation exec := (exec NumberToString).
Local Abbreviation attempt := (attempt NumberToString).
Local Abbreviation request_ts := (request_ts StringToNumber).
Local Abbreviation supplied_sig := (supplied_sig NumberToString).
Local Abbreviation expected_sig := (expected_sig NumberToString API_SECRET StringToNumber).
Local Abbreviation passes_gate := (passes_gate NumberToString API_SECRET StringToNumber).
Local Abbreviation birth_insert := (birth_insert StringToNumber).
Local Abbreviation transfer_insert := (transfer_insert StringToNumber).
Local Abbreviation route := (route NumberToString API_SECRET StringToNumber).

Lemma attempt_exec (e : Env) (sent : list query) (q : query) (d d' : Db) :
  attempt e sent q d = Some d' ->
  storage_up e (length sent) = true /\ exists rs, exec q d = Some (rs, d').
Proof.
  unfold attempt. destruct (storage_up e (length sent)); [| discriminate].
  destruct (exec q d) as [[rs d0]|]; [| discriminate].
  cbn. intros H. injection H as <-. eauto.
Qed.

(** A request is refused by the gate, for one of its two reasons, or
    passes it. *)
Lemma route_cases (op : operation) (req : option body) (e : Env) (w : World) :
  route op req e w = (Val (bad "stale ts"), tick w)
  \/ route op req e w = (Val (bad "bad sig"), tick w)
  \/ passes_gate op (default ∅ req) e w.
Proof.
  destruct (freshb (server_time e w) (request_ts (default ∅ req))) eqn:Hf;
    [| left; now apply route_stale].
  destruct (decide (supplied_sig (default ∅ req) = expected_sig op (default ∅ req)))
    as [Hs | Hs]; [| right; left; now apply route_bad_sig].
  right; right. split; [now apply freshb_spec | assumption].
Qed.

(** The database a route leaves behind: the one it found, or the one after
    its row insert, or the one after its audit insert as well. *)
Lemma route_db (op : operation) (req : option body) (e : Env) (w : World) :
  let b := default ∅ req in
  let d' := db (snd (route op req e w)) in
  d' = db w
  \/ (exists t sent d1,
        op = Birth /\ attempt e sent (birth_insert b t) (db w) = Some d1
        /\ (d' = d1
            \/ exists sent' d2,
                 attempt e sent' (INSERT_audit (VStr "birth") b (Int t)) d1 = Some d2
                 /\ d' = d2))
  \/ (exists t sent d1,
        op = Transfer /\ attempt e sent (transfer_insert b) (db w) = Some d1
        /\ (d' = d1
            \/ exists sent' d2,
                 attempt e sent' (INSERT_audit (VStr "transfer") b (Int t)) d1 = Some d2
                 /\ d' = d2)).
Proof.
  intros b d'. subst d'.
  destruct (route_cases op req e w) as [-> | [-> | Ha]]; [now left | now left |].
  destruct op; unfold route.
  - rewrite birth_gated_run by exact Ha. fold b.
    destruct (attempt e (issued w) _ (db w)) as [d1|] eqn:Hq1; [| now left].
    right; left. eexists _, _, d1. split; [reflexivity |]. split; [exact Hq1 |].
    destruct (attempt e (issued w ++ _) _ d1) as [d2|] eqn:Hq2; [| now left].
    right. eexists _, d2. split; [exact Hq2 | reflexivity].
  - rewrite transfer_gated_run by exact Ha. fold b.
    destruct (attempt e (issued w) _ (db w)) as [d1|] eqn:Hq1; [| now left].
    right; right. eexists _, _, d1. split; [reflexivity |]. split; [exact Hq1 |].
    destruct (attempt e (issued w ++ _) _ d1) as [d2|] eqn:Hq2; [| now left].
    right. eexists _, d2. split; [exact Hq2 | reflexivity].
  - rewrite verify_gated_run by exact Ha. left.
    repeat (match goal with
            | |- context [match ?x with _ => _ end] => destruct x
            end); reflexivity.
Qed.

(** X4.  A route always answers, and a failure of the storage layer never
    escapes it.  The answer is one of "stale ts", "bad sig" and "db error"
    (status 400), or [ok: true] for a write, or, for a query, "not found",
    "dna mismatch" or [ok: true] with a row of [births] (status 200).  The
    route reads the clock once or twice and sends at most two statements;
    it sends none when it answers "stale ts" or "bad sig". *)
Theorem route_answers (op : operation) (req : option body) (e : Env) (w : World) :
  exists resp w' sent,
    route op req e w = (Val resp, w')
    /\ issued w' = issued w ++ sent /\ (length sent <= 2)%nat
    /\ (ticks w < ticks w' <= ticks w + 2)%nat
    /\ (resp = bad "stale ts" /\ sent = []
        \/ resp = bad "bad sig" /\ sent = []
        \/ resp = bad "db error" /\ sent <> []
        \/ op <> Verify /\ resp = success /\ length sent = 2%nat
        \/ op = Verify /\ length sent = 1%nat
           /\ (resp = not_found \/ resp = dna_mismatch
               \/ exists row, row ∈ rows (births_tbl (db w)) /\ resp = verified row)).
Proof.
  destruct (route_cases op req e w) as [H | [H | Ha]].
  - exists (bad "stale ts"), (tick w), []. rewrite H, app_nil_r. cbn.
    repeat split; try lia. now left.
  - exists (bad "bad sig"), (tick w), []. rewrite H, app_nil_r. cbn.
    repeat split; try lia. right; now left.
  - destruct op; unfold route.
    + rewrite birth_gated_run by exact Ha.
      destruct (attempt e (issued w) _ (db w)) as [d1|].
      * destruct (attempt e (issued w ++ _) _ d1) as [d2|];
          eexists _, _, [_; _]; (split; [reflexivity |]); cbn;
          rewrite <- app_assoc; repeat split; try lia.
        -- do 3 right. left. repeat split. discriminate.
        -- do 2 right. left. split; [reflexivity | discriminate].
      * eexists _, _, [_]. split; [reflexivity |]. cbn. repeat split; try lia.
        do 2 right. left. split; [reflexivity | discriminate].
    + rewrite transfer_gated_run by exact Ha.
      destruct (attempt e (issued w) _ (db w)) as [d1|].
      * destruct (attempt e (issued w ++ _) _ d1) as [d2|];
          eexists _, _, [_; _]; (split; [reflexivity |]); cbn;
          rewrite <- app_assoc; repeat split; try lia.
        -- do 3 right. left. repeat split. discriminate.
        -- do 2 right. left. split; [reflexivity | discriminate].
      * eexists _, _, [_]. split; [reflexivity |]. cbn. repeat split; try lia.
        do 2 right. left. split; [reflexivity | discriminate].
    + rewrite verify_gated_run by exact Ha.
      destruct (storage_up e (length (issued w))).
      * destruct (text_param _) as [[c|]|].
        -- destruct (stored_under c (rows (births_tbl (db w)))) as [|row rest] eqn:Hs.
           ++ eexists _, _, [_]. split; [reflexivity |]. cbn. repeat split; try lia.
              do 4 right. repeat split. now left.
           ++ assert (Hin : row ∈ rows (births_tbl (db w))).
              { assert (Hin : row ∈ stored_under c (rows (births_tbl (db w))))
                  by (rewrite Hs; left).
                now apply list_elem_of_filter in Hin as [_ Hin]. }
              destruct (_ && _);
                eexists _, _, [_]; (split; [reflexivity |]); cbn;
                repeat split; try lia; do 4 right; repeat split.
              ** right; now left.
              ** right; right. eauto.
        -- eexists _, _, [_]. split; [reflexivity |]. cbn. repeat split; try lia.
           do 4 right. repeat split. now left.
        -- eexists _, _, [_]. split; [reflexivity |]. cbn. repeat split; try lia.
           do 2 right. left. split; [reflexivity | discriminate].
      * eexists _, _, [_]. split; [reflexivity |]. cbn. repeat split; try lia.
        do 2 right. left. split; [reflexivity | discriminate].
Qed.

End Outcomes.

(** ** What a route does to the tables *)

Section Effects.

Variable NumberToString : Rendering.
Variable API_SECRET : string.
Variable StringToNumber : string -> num.

Local Abbreviation route := (route NumberToString API_SECRET StringToNumber).
Local Abbreviation verify := (verify NumberToString API_SECRET StringToNumber).

(** X5.  The three tables are append-only: whatever a route answers, every
    row stored before is still there, unchanged and in place, and each
    table has gained at most one row.  A birth adds nothing to
    [transfers], a transfer nothing to [births], a query nothing at all. *)
Theorem routes_append_only (op : operation) (req : option body) (e : Env) (w : World) :
  let d := db w in
  let d' := db (snd (route op req e w)) in
  exists nb nt na,
    rows (births_tbl d') = rows (births_tbl d) ++ nb
    /\ rows (transfers_tbl d') = rows (transfers_tbl d) ++ nt
    /\ rows (audit_tbl d') = rows (audit_tbl d) ++ na
    /\ (length nb <= 1)%nat /\ (length nt <= 1)%nat /\ (length na <= 1)%nat
    /\ (op <> Birth -> nb = []) /\ (op <> Transfer -> nt = [])
    /\ (op = Verify -> na = []).
Proof.
  intros d d'. subst d d'.
  destruct (route_db NumberToString API_SECRET StringToNumber op req e w)
    as [-> | [(t & sent & d1 & -> & Hq1 & Hd) | (t & sent & d1 & -> & Hq1 & Hd)]].
  - exists [], [], []. rewrite !app_nil_r. cbn. repeat split; lia.
  - apply attempt_birth_insert in Hq1 as (Ht1 & Ha1 & r & _ & Hrows1).
    assert (Hb : exists nb, rows (births_tbl d1) = rows (births_tbl (db w)) ++ nb
                            /\ (length nb <= 1)%nat).
    { rewrite Hrows1. destruct (conflicts _ _).
      - exists []. rewrite app_nil_r. cbn. split; [reflexivity | lia].
      - exists [r]. cbn. split; [reflexivity | lia]. }
    destruct Hb as (nb & Hnb & Hlen).
    destruct Hd as [-> | (sent' & d2 & Hq2 & ->)].
    + exists nb, [], []. rewrite Ht1, Ha1, Hnb, !app_nil_r. cbn.
      repeat split; try lia; congruence.
    + apply attempt_audit_insert in Hq2 as (Hb2 & Ht2 & ts2 & _ & Ha2).
      eexists nb, [], [_]. rewrite Hb2, Ht2, Ha2, Ht1, Ha1, Hnb, !app_nil_r. cbn.
      repeat split; try lia; congruence.
  - apply attempt_transfer_insert in Hq1 as (Hb1 & Ha1 & ts & _ & _ & Hrows1).
    destruct Hd as [-> | (sent' & d2 & Hq2 & ->)].
    + eexists [], [_], []. rewrite Hb1, Ha1, Hrows1, !app_nil_r. cbn.
      repeat split; try lia; congruence.
    + apply attempt_audit_insert in Hq2 as (Hb2 & Ht2 & ts2 & _ & Ha2).
      eexists [], [_], [_]. rewrite Hb2, Ht2, Ha2, Hb1, Ha1, Hrows1, !app_nil_r. cbn.
      repeat split; try lia; congruence.
Qed.

(** X6.  The verify route is read-only: whatever the request and whatever
    it answers, the database (rows and sequences) is the one it found, and
    the only statement it may send is the lookup by certificate
    identifier. *)
Theorem verify_read_only (req : option body) (e : Env) (w : World) :
  let w' := snd (verify req e w) in
  db w' = db w
  /\ (issued w' = issued w
      \/ issued w' = issued w ++ [SELECT_births_by_cert_id (default ∅ req).["cert_id"]]).
Proof.
  intros w'. subst w'.
  destruct (route_cases NumberToString API_SECRET StringToNumber Verify req e w) as [H | [H | Ha]].
  - unfold route in H. rewrite H. cbn. auto.
  - unfold route in H. rewrite H. cbn. auto.
  - rewrite verify_gated_run by exact Ha.
    repeat (match goal with
            | |- context [match ?x with _ => _ end] => destruct x
            end); cbn; auto.
Qed.

End Effects.

(** ** When the storage layer fails *)

Section Failures.

Variable NumberToString : Rendering.
Variable API_SECRET : string.
Variable StringToNumber : string -> num.

Local Abbreviation attempt := (attempt NumberToString).
Local Abbreviation passes_gate := (passes_gate NumberToString API_SECRET StringToNumber).
Local Abbreviation birth_cert_id := (birth_cert_id NumberToString).
Local Abbreviation birth_insert := (birth_insert StringToNumber).
Local Abbreviation birth_binds := (birth_binds NumberToString StringToNumber).
Local Abbreviation birth := (birth NumberToString API_SECRET StringToNumber).

(** X7.  A birth answered "db error" may have been stored all the same.
    When the request passes the gate and its row insert goes through but
    the audit insert raises (the pool is down for it, or the body holds a
    character of code 0, which JSONB refuses), the answer is "db error",
    the certificate row is in [births] (for an identifier not stored
    before) and [audit] has no trace of it: the two inserts are not one
    transaction. *)
Theorem birth_stored_without_audit (req : option body) (e : Env) (w : World) :
  let b := default ∅ req in
  passes_gate Birth b e w ->
  birth_binds b (Date_now e (S (ticks w)) / 1000) ->
  storage_up e (length (issued w)) = true ->
  storage_up e (S (length (issued w))) = false \/ jsonb_ok b = false ->
  conflicts (birth_cert_id b) (rows (births_tbl (db w))) = false ->
  exists w' r,
    birth req e w = (Val (bad "db error"), w')
    /\ rows (births_tbl (db w')) = rows (births_tbl (db w)) ++ [r]
    /\ births.cert_id r = birth_cert_id b
    /\ audit_tbl (db w') = audit_tbl (db w).
Proof.
  intros b Ha Hfit Hup1 Hfail Hfree.
  rewrite birth_gated_run by exact Ha. fold b.
  destruct (attempt_birth_insert_runs NumberToString StringToNumber
              e (issued w) b _ (db w) Hup1 Hfit) as [d1 Hq1].
  rewrite Hq1.
  assert (Hq2 : forall ev ts,
             attempt e (issued w ++ [birth_insert b (Date_now e (S (ticks w)) / 1000)])
               (INSERT_audit ev b ts) d1 = None).
  { intros ev ts.
    destruct (attempt e _ (INSERT_audit ev b ts) d1) as [d2|] eqn:Hq; [| reflexivity].
    exfalso. destruct Hfail as [Hdown | Hjson].
    - unfold attempt in Hq. rewrite length_app, Nat.add_1_r, Hdown in Hq. discriminate.
    - apply attempt_audit_insert_payload in Hq. congruence. }
  rewrite Hq2.
  apply attempt_birth_insert in Hq1 as (_ & Haud & r & Hr & Hrows).
  rewrite Hfree in Hrows.
  eexists _, r. split; [reflexivity |]. cbn [db]. now repeat split.
Qed.

(** X8.  A birth that passes the gate but whose row the database does not
    accept (a generation, tier or certificate timestamp that is not a
    number or does not fit its INT or BIGINT column, a text field that
    holds the byte 0) is answered "db error": the row insert is sent and
    raises, nothing is stored and the audit insert is never sent. *)
Theorem unstorable_birth_is_db_error (req : option body) (e : Env) (w : World) :
  let b := default ∅ req in
  let t := Date_now e (S (ticks w)) / 1000 in
  passes_gate Birth b e w ->
  ~ birth_binds b t ->
  exists w',
    birth req e w = (Val (bad "db error"), w')
    /\ db w' = db w
    /\ issued w' = issued w ++ [birth_insert b t].
Proof.
  intros b t Ha Hfit.
  rewrite birth_gated_run by exact Ha. fold b t.
  rewrite attempt_birth_insert_fails by exact Hfit.
  eexists. split; [reflexivity |]. now split.
Qed.

End Failures.

(** ** What holds of every database the server can reach *)

Lemma ascending_weaken (low high high' : Z) (ids : list Z) :
  ascending low ids high -> high <= high' -> ascending low ids high'.
Proof.
  revert low. induction ids as [|i ids IH]; simpl; intros low H Hle; [lia |].
  destruct H as [Hlt H]. split; [assumption | now apply IH].
Qed.

Lemma ascending_snoc (low high : Z) (ids : list Z) :
  ascending low ids high -> ascending low (ids ++ [high + 1]) (high + 1).
Proof.
  revert low. induction ids as [|i ids IH]; simpl; intros low H; [lia |].
  destruct H as [Hlt H]. split; [assumption | now apply IH].
Qed.

Lemma ascending_bounds (low high : Z) (ids : list Z) :
  ascending low ids high ->
  NoDup ids /\ Forall (fun i => low < i <= high) ids.
Proof.
  revert low. induction ids as [|i ids IH]; simpl; intros low H.
  - split; constructor.
  - destruct H as [Hlt H]. destruct (IH i H) as [Hnd Hall]. split.
    + constructor; [| assumption]. intros Hin.
      rewrite Forall_forall in Hall. specialize (Hall i Hin). lia.
    + constructor.
      * split; [assumption |]. destruct ids as [|j ids]; simpl in H; [lia |].
        apply Forall_inv in Hall. lia.
      * eapply Forall_impl; [exact Hall |]. simpl. intros j Hj. lia.
Qed.

Lemma serial_ok_skip {R : Type} (id : R -> Z) (rs : list R) (n : Z) :
  serial_ok id (Table rs n) -> serial_ok id (Table rs (n + 1)).
Proof. unfold serial_ok. cbn. intros H. eapply ascending_weaken; [exact H | lia]. Qed.

Lemma serial_ok_insert {R : Type} (id : R -> Z) (rs : list R) (n : Z) (r : R) :
  id r = n + 1 ->
  serial_ok id (Table rs n) -> serial_ok id (Table (rs ++ [r]) (n + 1)).
Proof.
  unfold serial_ok. cbn. intros Hid H. rewrite map_app. cbn. rewrite Hid.
  now apply ascending_snoc.
Qed.

Lemma table_eta {R : Type} (t : table R) : Table (rows t) (seq_last t) = t.
Proof. now destruct t. Qed.

Section Reachable.

Variable NumberToString : Rendering.
Variable API_SECRET : string.
Variable StringToNumber : string -> num.

Local Abbreviation pg_text := (pg_text NumberToString).
Local Abbreviation transfers_row_of := (transfers_row_of NumberToString).
Local Abbreviation audit_row_of := (audit_row_of NumberToString).
Local Abbreviation exec := (exec NumberToString).
Local Abbreviation route := (route NumberToString API_SECRET StringToNumber).
Local Abbreviation serve := (serve NumberToString API_SECRET StringToNumber).

(** Every statement keeps the serial ids in order. *)
Lemma exec_serials_ok (q : query) (d d' : Db) (rs : list births.row) :
  exec q d = Some (rs, d') -> serials_ok d -> serials_ok d'.
Proof.
  unfold serials_ok. intros H (Hb & Ht & Ha). destruct q; unfold exec in H.
  - apply bind_Some in H as (r & Hr & H). injection H as _ <-. cbn.
    repeat split; try assumption.
    rewrite <- (table_eta (births_tbl d)) in Hb.
    destruct (conflicts _ _); [now apply serial_ok_skip |].
    apply serial_ok_insert; [| assumption].
    now apply births_row_of_Some in Hr as (? & ? & ? & ? & _ & _ & _ & _ & ->).
  - apply bind_Some in H as (r & Hr & H). injection H as _ <-. cbn.
    repeat split; try assumption.
    rewrite <- (table_eta (transfers_tbl d)) in Ht. apply serial_ok_insert; [| assumption].
    unfold transfers_row_of in Hr.
    repeat (apply bind_Some in Hr as (? & ? & Hr)). now injection Hr as <-.
  - apply bind_Some in H as (r & Hr & H). injection H as _ <-. cbn.
    repeat split; try assumption.
    rewrite <- (table_eta (audit_tbl d)) in Ha. apply serial_ok_insert; [| assumption].
    unfold audit_row_of in Hr.
    repeat (apply bind_Some in Hr as (? & ? & Hr)). now injection Hr as <-.
  - apply bind_Some in H as (c & _ & H).
    destruct c; injection H as _ <-; now repeat split.
Qed.

(** [v || null] never reaches a TEXT column as the empty string. *)
Lemma pg_text_or_null (v : value) : text_ok (pg_text (v || VNull)%js).
Proof.
  unfold text_ok, or_else.
  destruct v as [| | [|] | [z|] | s]; cbn; try discriminate.
  - destruct (z =? 0); cbn; [discriminate |].
    intros H. injection H as H. now apply render_nonempty in H.
  - destruct (String.eqb s "") eqn:Hs; cbn; [discriminate |].
    intros H. injection H as ->. discriminate.
Qed.

(** What every route keeps and the fresh tables satisfy holds after any
    list of requests. *)
Lemma serve_invariant (P : Db -> Prop) :
  (forall op req e w, P (db w) -> P (db (snd (route op req e w)))) ->
  forall reqs e w, P (db w) -> P (db (serve reqs e w)).
Proof.
  intros Hstep reqs e. induction reqs as [|[op req] reqs IH]; intros w Hw;
    [assumption |].
  change (P (db (serve reqs e (snd (route op req e w))))). apply IH. now apply Hstep.
Qed.

Lemma route_keeps_serials (op : operation) (req : option body) (e : Env) (w : World) :
  serials_ok (db w) -> serials_ok (db (snd (route op req e w))).
Proof.
  intros Hw.
  destruct (route_db NumberToString API_SECRET StringToNumber op req e w)
    as [-> | [(t & sent & d1 & _ & Hq1 & Hd) | (t & sent & d1 & _ & Hq1 & Hd)]];
    [assumption | |];
    apply attempt_exec in Hq1 as (_ & rs1 & Hq1);
    pose proof (exec_serials_ok _ _ _ _ Hq1 Hw) as H1;
    (destruct Hd as [-> | (sent' & d2 & Hq2 & ->)]; [assumption |]);
    apply attempt_exec in Hq2 as (_ & rs2 & Hq2);
    exact (exec_serials_ok _ _ _ _ Hq2 H1).
Qed.

Lemma route_keeps_rows_ok (op : operation) (req : option body) (e : Env) (w : World) :
  rows_ok (db w) -> rows_ok (db (snd (route op req e w))).
Proof.
  unfold rows_ok. intros (Hb & Ht & Ha).
  destruct (route_db NumberToString API_SECRET StringToNumber op req e w)
    as [-> | [(t & sent & d1 & _ & Hq1 & Hd) | (t & sent & d1 & _ & Hq1 & Hd)]];
    [now repeat split | |].
  - apply attempt_birth_insert_row in Hq1 as (Ht1 & Ha1 & r & Hr & _ & Hrows1).
    assert (Hb1 : Forall births_row_ok (rows (births_tbl d1))).
    { rewrite Hrows1. destruct (conflicts _ _); [assumption |].
      apply Forall_app. split; [assumption |]. constructor; [| constructor].
      apply births_row_of_Some in Hr as (? & ? & ? & ? & _ & _ & _ & _ & ->).
      unfold births_row_ok. cbn.
      repeat split; try apply pg_text_or_null; eauto. }
    destruct Hd as [-> | (sent' & d2 & Hq2 & ->)].
    + rewrite Ht1, Ha1. now repeat split.
    + apply attempt_audit_insert in Hq2 as (Hb2 & Ht2 & ts2 & _ & Ha2).
      rewrite Hb2, Ht2, Ha2, Ht1, Ha1. repeat split; try assumption.
      apply Forall_app. split; [assumption |]. constructor; [| constructor].
      unfold audit_row_ok. cbn. repeat split; eauto.
  - apply attempt_transfer_insert in Hq1 as (Hb1 & Ha1 & ts & _ & _ & Hrows1).
    assert (Ht1 : Forall transfers_row_ok (rows (transfers_tbl d1))).
    { rewrite Hrows1. apply Forall_app. split; [assumption |].
      constructor; [| constructor].
      unfold transfers_row_ok. cbn. repeat split; try apply pg_text_or_null; eauto. }
    destruct Hd as [-> | (sent' & d2 & Hq2 & ->)].
    + rewrite Hb1, Ha1. now repeat split.
    + apply attempt_audit_insert in Hq2 as (Hb2 & Ht2 & ts2 & _ & Ha2).
      rewrite Hb2, Ht2, Ha2, Hb1, Ha1. repeat split; try assumption.
      apply Forall_app. split; [assumption |]. constructor; [| constructor].
      unfold audit_row_ok. cbn. repeat split; eauto.
Qed.

(** X9.  In every database the server reaches from its fresh tables, by
    any list of requests under any clock and any storage failures, no two
    rows of [births] carry the same certificate identifier: each
    identifier is stored under at most one row. *)
Theorem certificates_stay_unique
    (reqs : list (operation * option body)) (e : Env) (c : string) :
  let stored := rows (births_tbl (db (serve reqs e boot))) in
  cert_unique stored /\ (length (stored_under c stored) <= 1)%nat.
Proof.
  intros stored.
  assert (H : cert_unique stored).
  { apply (serve_invariant (fun d => cert_unique (rows (births_tbl d)))).
    - intros op req e' w. apply route_keeps_cert_unique.
    - apply initSchema_cert_unique. }
  split; [assumption | now apply cert_unique_stored_under].
Qed.

(** X10.  In every database the server reaches from its fresh tables, the
    serial ids of each table are positive, strictly increasing in
    insertion order and never beyond the sequence; in particular no two
    rows of a table share an id. *)
Theorem serial_ids_stay_distinct
    (reqs : list (operation * option body)) (e : Env) :
  let d := db (serve reqs e boot) in
  serials_ok d
  /\ NoDup (map births.id (rows (births_tbl d)))
  /\ NoDup (map transfers.id (rows (transfers_tbl d)))
  /\ NoDup (map audit.id (rows (audit_tbl d))).
Proof.
  intros d.
  assert (H : serials_ok d).
  { apply (serve_invariant serials_ok).
    - intros op req e' w. apply route_keeps_serials.
    - unfold serials_ok, serial_ok. cbn. lia. }
  split; [assumption |].
  destruct H as (Hb & Ht & Ha).
  repeat split; eapply ascending_bounds; eassumption.
Qed.

(** X11.  In every database the server reaches from its fresh tables, no
    TEXT column of [births] or [transfers] holds the empty string (an
    absent, null, false, zero or empty field is stored as NULL), no
    numeric column of these tables is NULL, and every audit row has the
    event "birth" or "transfer", a payload and a timestamp. *)
Theorem stored_rows_stay_normalised
    (reqs : list (operation * option body)) (e : Env) :
  rows_ok (db (serve reqs e boot)).
Proof.
  apply (serve_invariant rows_ok).
  - intros op req e' w. apply route_keeps_rows_ok.
  - unfold rows_ok. cbn. repeat split; constructor.
Qed.

End Reachable.

(** ** Looking certificates up *)

Lemma first_under_stored (c : string) (rs : list births.row) (row : births.row) :
  first_under c rs row -> exists rest, stored_under c rs = row :: rest.
Proof.
  intros (pre & post & -> & Hrow & Hpre). unfold stored_under.
  rewrite filter_app, filter_cons_True by assumption.
  assert (Hnil : filter (fun r => births.cert_id r = Some c) pre = []).
  { clear -Hpre. induction pre as [|r pre IH]; [reflexivity |].
    rewrite filter_cons_False by (apply Hpre; left).
    apply IH. intros r' Hin. apply Hpre. now right. }
  rewrite Hnil. cbn. eauto.
Qed.

Section Lookup.

Variable NumberToString : Rendering.
Variable API_SECRET : string.
Variable StringToNumber : string -> num.

Local Abbreviation pg_text := (pg_text NumberToString).
Local Abbreviation text_param := (text_param NumberToString).
Local Abbreviation births_row_of := (births_row_of NumberToString).
Local Abbreviation passes_gate := (passes_gate NumberToString API_SECRET StringToNumber).
Local Abbreviation birth_cert_id := (birth_cert_id NumberToString).
Local Abbreviation birth_row := (birth_row NumberToString StringToNumber).
Local Abbreviation lookup_binds := (lookup_binds NumberToString).
Local Abbreviation first_identified := (first_identified NumberToString).
Local Abbreviation birth := (birth NumberToString API_SECRET StringToNumber).
Local Abbreviation verify := (verify NumberToString API_SECRET StringToNumber).

(** X12.  A query that passes the gate and names no certificate (its
    [cert_id] is absent or null) is answered "not found" whatever is
    stored, the births stored without identifier included: NULL matches
    nothing. *)
Theorem verify_without_identifier (req : option body) (e : Env) (w : World) :
  let b := default ∅ req in
  passes_gate Verify b e w ->
  reachable e w ->
  b.["cert_id"] = VUndefined \/ b.["cert_id"] = VNull ->
  fst (verify req e w) = Val not_found.
Proof.
  intros b Ha Hup Hid. rewrite verify_gated_run by exact Ha. fold b.
  unfold reachable in Hup. rewrite Hup.
  assert (Hnull : text_param b.["cert_id"] = Some None)
    by (destruct Hid as [-> | ->]; reflexivity).
  now rewrite Hnull.
Qed.

(** X13.  A content hash asserted as anything but a string never matches:
    when the lookup is accepted, the queried certificate is stored with a
    non-empty hash and the asserted hash is truthy but not a string (the
    number 5, say, for the stored text "5"), the answer is "dna
    mismatch".  The comparison is strict and the stored column is always
    text. *)
Theorem non_string_hash_never_matches
    (req : option body) (e : Env) (w : World) (row : births.row) (s : string) :
  let b := default ∅ req in
  passes_gate Verify b e w ->
  reachable e w ->
  lookup_binds b ->
  first_identified b.["cert_id"] (rows (births_tbl (db w))) row ->
  births.dna_hash row = Some s -> s <> "" ->
  truthy b.["dna_hash"] = true ->
  (forall s', b.["dna_hash"] <> VStr s') ->
  fst (verify req e w) = Val dna_mismatch.
Proof.
  intros b Ha Hup [p Hbind] (c & Hc & Hfirst) Hhash Hs Htruthy Hnotstr.
  rewrite verify_gated_run by exact Ha. fold b.
  unfold reachable in Hup. rewrite Hup, Hbind.
  apply text_param_Some in Hbind. subst p. rewrite Hc.
  destruct (first_under_stored _ _ _ Hfirst) as [rest ->].
  assert (Hd : hashes_differ b.["dna_hash"] (births.dna_hash row)).
  { split; [assumption |]. exists s. repeat split; auto. }
  apply hashes_differ_spec in Hd. now rewrite Hd.
Qed.


End Lookup.

(** ** What the signature leaves open *)

Lemma concat_sep_shift (pre post : list string) (x y z : string) :
  concat_sep "|" (pre ++ (x +:+ "|" +:+ y) :: z :: post)
  = concat_sep "|" (pre ++ x :: (y +:+ "|" +:+ z) :: post).
Proof.
  induction pre as [|a pre IH].
  - cbn [app]. destruct post as [|p post].
    + cbn [concat_sep]. now rewrite !append_assoc.
    + rewrite (concat_sep_cons "|" (x +:+ "|" +:+ y) (z :: p :: post)),
        (concat_sep_cons "|" z (p :: post)),
        (concat_sep_cons "|" x ((y +:+ "|" +:+ z) :: p :: post)),
        (concat_sep_cons "|" (y +:+ "|" +:+ z) (p :: post)) by discriminate.
      now rewrite !append_assoc.
  - cbn [app]. rewrite !(concat_sep_cons "|" a) by (destruct pre; discriminate).
    now rewrite IH.
Qed.

Lemma prop_insert_ne (b : body) (k k' : string) (v : value) :
  k <> k' -> (<[k := v]> b).[k'] = b.[k'].
Proof. intros Hne. unfold prop. now rewrite lookup_insert_ne. Qed.

Section Loose.

Variable NumberToString : Rendering.
Variable API_SECRET : string.
Variable StringToNumber : string -> num.

Local Abbreviation ToString := (ToString NumberToString).
Local Abbreviation join_elem := (join_elem NumberToString).
Local Abbreviation join := (join NumberToString).
Local Abbreviation verifySig := (verifySig NumberToString).
Local Abbreviation request_ts := (request_ts StringToNumber).
Local Abbreviation supplied_sig := (supplied_sig NumberToString).
Local Abbreviation signed_string := (signed_string NumberToString API_SECRET StringToNumber).
Local Abbreviation expected_sig := (expected_sig NumberToString API_SECRET StringToNumber).
Local Abbreviation passes_gate := (passes_gate NumberToString API_SECRET StringToNumber).

(** X15.  The join does not escape the delimiter.  Two requests with the
    same timestamp whose field tuples differ only in that a "|" with what
    follows it moves from the end of one string field to the start of the
    next have the same signed string, so every signature that verifies
    for one verifies for the other. *)
Theorem delimiter_moves_between_fields
    (op : operation) (b1 b2 : body) (pre post : list value) (x y z sig : string) :
  request_ts b1 = request_ts b2 ->
  field_tuple op b1 = pre ++ VStr (x +:+ "|" +:+ y) :: VStr z :: post ->
  field_tuple op b2 = pre ++ VStr x :: VStr (y +:+ "|" +:+ z) :: post ->
  signed_string op b1 = signed_string op b2
  /\ expected_sig op b1 = expected_sig op b2
  /\ verifySig API_SECRET (request_ts b1) (join "|" (field_tuple op b1)) sig
     = verifySig API_SECRET (request_ts b2) (join "|" (field_tuple op b2)) sig.
Proof.
  intros Hts H1 H2.
  assert (Hs : signed_string op b1 = signed_string op b2).
  { unfold signed_string, join. rewrite Hts, H1, H2.
    cbn [map]. rewrite <- !app_assoc. cbn [app]. rewrite !map_app. cbn [map join_elem ToString].
    apply (concat_sep_shift (join_elem (VNum (request_ts b2)) :: map join_elem pre)). }
  split; [assumption |]. split; [unfold expected_sig; now rewrite Hs |].
  unfold verifySig.
  rewrite <- !(signed_string_unfold NumberToString API_SECRET StringToNumber op). now rewrite Hs.
Qed.

(** X16.  A field outside the signed tuple can be set to anything without
    the gate noticing: the timestamp, the signed string and the supplied
    signature are the same, so the request passes the gate exactly when
    the original does.  For a birth this covers [kit_sid], which is
    stored. *)
Theorem unsigned_fields_are_free
    (op : operation) (b : body) (k : string) (v : value) (e : Env) (w : World) :
  k ∉ "ts" :: "sig" :: signed_fields op ->
  request_ts (<[k := v]> b) = request_ts b
  /\ supplied_sig (<[k := v]> b) = supplied_sig b
  /\ signed_string op (<[k := v]> b) = signed_string op b
  /\ (passes_gate op (<[k := v]> b) e w <-> passes_gate op b e w).
Proof.
  intros Hk.
  assert (Hts : k <> "ts") by (intros ->; apply Hk; left).
  assert (Hsig : k <> "sig") by (intros ->; apply Hk; right; left).
  assert (Hfields : field_tuple op (<[k := v]> b) = field_tuple op b).
  { unfold field_tuple. apply map_ext_in. intros k' Hin.
    apply prop_insert_ne. intros ->. apply Hk. right; right.
    now apply list_elem_of_In. }
  assert (H1 : request_ts (<[k := v]> b) = request_ts b)
    by (unfold request_ts; now rewrite prop_insert_ne).
  assert (H2 : supplied_sig (<[k := v]> b) = supplied_sig b)
    by (unfold supplied_sig; now rewrite prop_insert_ne).
  assert (H3 : signed_string op (<[k := v]> b) = signed_string op b)
    by (unfold signed_string; now rewrite H1, Hfields).
  split; [assumption |]. split; [assumption |]. split; [assumption |].
  unfold passes_gate, expected_sig. rewrite H1, H2, H3. tauto.
Qed.

End Loose.

(** ** Time *)

(** X17.  In milliseconds the freshness window is not symmetric, because
    the server clock is floored to whole seconds: a timestamp of [t]
    seconds is fresh exactly while [Date.now()] lies between
    [1000 * (t - 300)] and [1000 * (t + 300) + 999]. *)
Theorem freshness_in_milliseconds (e : Env) (w : World) (t : Z) :
  fst (enforceFresh (Int t) e w) = Val true
  <-> 1000 * (t - 300) <= Date_now e (ticks w) <= 1000 * (t + 300) + 999.
Proof.
  rewrite enforceFresh_run. cbn [fst].
  unfold freshb, num_sub, Math_abs, num_le, server_time.
  pose proof (Z.div_mod (Date_now e (ticks w)) 1000 ltac:(lia)) as Hdm.
  pose proof (Z.mod_pos_bound (Date_now e (ticks w)) 1000 ltac:(lia)) as Hm.
  split.
  - intros H. injection H as H. apply Z.leb_le in H. lia.
  - intros H. f_equal. apply Z.leb_le. lia.
Qed.

Section Stamps.

Variable NumberToString : Rendering.
Variable API_SECRET : string.
Variable StringToNumber : string -> num.

Local Abbreviation pg_text := (pg_text NumberToString).
Local Abbreviation pg_int := (pg_int NumberToString).
Local Abbreviation request_ts := (request_ts StringToNumber).
Local Abbreviation transfer := (transfer NumberToString API_SECRET StringToNumber).

(** X18.  A transfer answered with success is stored under the timestamp
    the caller signed, not under the server's: the new row of [transfers]
    carries the request's [ts], which lies within 300 seconds of the
    server time read by the gate, together with the three owner fields as
    the driver sent them (falsy ones as NULL); the audit row carries the
    server time read after the insert.  Both times are stored as the
    database reads them back from the driver's text, which is the number
    itself up to 2^53. *)
Theorem transfer_keeps_caller_timestamp
    (req : option body) (e : Env) (w w' : World) :
  let b := default ∅ req in
  let audited := Date_now e (S (ticks w)) / 1000 in
  transfer req e w = (Val success, w') ->
  exists t ts ats id id',
    request_ts b = Int t
    /\ Z.abs (server_time e w - t) <= 300
    /\ pg_int 64 (Int t) = Some ts
    /\ (Z.abs t <= 2 ^ 53 -> ts = t)
    /\ rows (transfers_tbl (db w'))
       = rows (transfers_tbl (db w))
         ++ [transfers.Row id
               (pg_text (b.["sid"] || VNull)%js)
               (pg_text (b.["from_owner"] || VNull)%js)
               (pg_text (b.["to_owner"] || VNull)%js) (Some ts)]
    /\ pg_int 64 (Int audited) = Some ats
    /\ (Z.abs audited <= 2 ^ 53 -> ats = audited)
    /\ rows (audit_tbl (db w'))
       = rows (audit_tbl (db w))
         ++ [audit.Row id' (Some "transfer") (Some b) (Some ats)].
Proof.
  intros b audited H.
  pose proof (ok_passes_gate NumberToString API_SECRET StringToNumber Transfer req e w w' success H eq_refl)
    as [(t & Ht & Habs) _].
  apply transfer_success_inv in H as (d1 & d2 & Hq1 & Hq2 & ->).
  apply attempt_transfer_insert in Hq1 as (_ & Ha1 & ts & Hts & _ & Hrows1).
  apply attempt_audit_insert in Hq2 as (_ & Ht2 & ats & Hats & Hrows2).
  fold b in Ht, Hts, Hrows1, Hrows2. fold audited in Hats, Hrows2.
  rewrite Ht in Hts.
  exists t, ts, ats. eexists _, _. cbn [db].
  rewrite Ht2, Hrows1, Hrows2, Ha1.
  repeat (split; [first [assumption | reflexivity
                         | intros Hz; eapply pg_int_safe; eassumption] |]).
  reflexivity.
Qed.

End Stamps.

(** ** The further properties at work on the sample requests *)

Lemma sample_fresh (b : body) (w : World) :
  request_ts decimal_text b = Int 1700000000 ->
  fresh_at (server_time sample_env w) (request_ts decimal_text b).
Proof. intros ->. apply freshb_spec. vm_compute. reflexivity. Qed.

Lemma bad_sig_rejected_before_storage_witness :
  fresh_at (server_time sample_env sample_world)
    (request_ts decimal_text sample_birth_forged)
  /\ supplied_sig decimal_rendering sample_birth_forged
     <> expected_sig decimal_rendering sample_secret decimal_text Birth sample_birth_forged
  /\ exists w',
       route decimal_rendering sample_secret decimal_text Birth (Some sample_birth_forged)
         sample_env sample_world
       = (Val (bad "bad sig"), w')
       /\ issued w' = issued sample_world /\ db w' = db sample_world.
Proof.
  assert (H1 : fresh_at (server_time sample_env sample_world)
                 (request_ts decimal_text sample_birth_forged))
    by (apply sample_fresh; vm_compute; reflexivity).
  assert (H2 : supplied_sig decimal_rendering sample_birth_forged
               <> expected_sig decimal_rendering sample_secret decimal_text Birth sample_birth_forged)
    by (vm_compute; discriminate).
  split; [exact H1 |]. split; [exact H2 |].
  exact (bad_sig_rejected_before_storage decimal_rendering sample_secret decimal_text Birth
           (Some sample_birth_forged) sample_env sample_world H1 H2).
Defined.

Lemma malformed_sig_rejected_witness :
  fresh_at (server_time sample_env sample_world)
    (request_ts decimal_text sample_birth_upper)
  /\ (truthy sample_birth_upper.["sig"] = false
      \/ is_md5_hex (supplied_sig decimal_rendering sample_birth_upper) = false)
  /\ exists w',
       route decimal_rendering sample_secret decimal_text Birth (Some sample_birth_upper)
         sample_env sample_world
       = (Val (bad "bad sig"), w')
       /\ issued w' = issued sample_world /\ db w' = db sample_world.
Proof.
  assert (H1 : fresh_at (server_time sample_env sample_world)
                 (request_ts decimal_text sample_birth_upper))
    by (apply sample_fresh; vm_compute; reflexivity).
  assert (H2 : truthy sample_birth_upper.["sig"] = false
               \/ is_md5_hex (supplied_sig decimal_rendering sample_birth_upper) = false)
    by (right; vm_compute; reflexivity).
  split; [exact H1 |]. split; [exact H2 |].
  exact (malformed_sig_rejected decimal_rendering sample_secret decimal_text Birth
           (Some sample_birth_upper) sample_env sample_world H1 H2).
Defined.

(** Without any signature the sample birth is refused as well. *)
Example sample_birth_unsigned_refused :
  fst (birth decimal_rendering sample_secret decimal_text (Some sample_birth_unsigned)
         sample_env sample_world)
  = Val (bad "bad sig").
Proof. vm_compute. reflexivity. Qed.

Lemma sample_gate (b : body) (op : operation) (w : World) :
  request_ts decimal_text b = Int 1700000000 ->
  supplied_sig decimal_rendering b = expected_sig decimal_rendering sample_secret decimal_text op b ->
  passes_gate decimal_rendering sample_secret decimal_text op b sample_env w.
Proof. intros Hts Hs. split; [now apply sample_fresh | exact Hs]. Qed.

Lemma birth_stored_without_audit_witness :
  passes_gate decimal_rendering sample_secret decimal_text Birth sample_birth flaky_env sample_world
  /\ birth_binds decimal_rendering decimal_text sample_birth
       (Date_now flaky_env (S (ticks sample_world)) / 1000)
  /\ storage_up flaky_env (length (issued sample_world)) = true
  /\ (storage_up flaky_env (S (length (issued sample_world))) = false
      \/ jsonb_ok sample_birth = false)
  /\ conflicts (birth_cert_id decimal_rendering sample_birth) (rows (births_tbl (db sample_world))) = false
  /\ exists w' r,
       birth decimal_rendering sample_secret decimal_text (Some sample_birth) flaky_env sample_world
       = (Val (bad "db error"), w')
       /\ rows (births_tbl (db w')) = rows (births_tbl (db sample_world)) ++ [r]
       /\ births.cert_id r = birth_cert_id decimal_rendering sample_birth
       /\ audit_tbl (db w') = audit_tbl (db sample_world).
Proof.
  assert (H1 : passes_gate decimal_rendering sample_secret decimal_text Birth sample_birth
                 flaky_env sample_world).
  { split; [apply freshb_spec |]; vm_compute; reflexivity. }
  assert (H2 : birth_binds decimal_rendering decimal_text sample_birth
                 (Date_now flaky_env (S (ticks sample_world)) / 1000))
    by (eexists; vm_compute; reflexivity).
  assert (H3 : storage_up flaky_env (length (issued sample_world)) = true)
    by reflexivity.
  assert (H4 : storage_up flaky_env (S (length (issued sample_world))) = false
               \/ jsonb_ok sample_birth = false)
    by (left; reflexivity).
  assert (H5 : conflicts (birth_cert_id decimal_rendering sample_birth)
                 (rows (births_tbl (db sample_world))) = false)
    by (vm_compute; reflexivity).
  repeat (split; [assumption |]).
  exact (birth_stored_without_audit decimal_rendering sample_secret decimal_text (Some sample_birth)
           flaky_env sample_world H1 H2 H3 H4 H5).
Defined.

Lemma unstorable_birth_is_db_error_witness :
  passes_gate decimal_rendering sample_secret decimal_text Birth sample_birth_big_gen
    sample_env sample_world
  /\ ~ birth_binds decimal_rendering decimal_text sample_birth_big_gen
         (Date_now sample_env (S (ticks sample_world)) / 1000)
  /\ exists w',
       birth decimal_rendering sample_secret decimal_text (Some sample_birth_big_gen)
         sample_env sample_world
       = (Val (bad "db error"), w')
       /\ db w' = db sample_world
       /\ issued w'
          = issued sample_world
            ++ [birth_insert decimal_text sample_birth_big_gen
                  (Date_now sample_env (S (ticks sample_world)) / 1000)].
Proof.
  assert (H1 : passes_gate decimal_rendering sample_secret decimal_text Birth sample_birth_big_gen
                 sample_env sample_world)
    by (apply sample_gate; vm_compute; reflexivity).
  assert (H2 : ~ birth_binds decimal_rendering decimal_text sample_birth_big_gen
                   (Date_now sample_env (S (ticks sample_world)) / 1000)).
  { intros [r Hr]. vm_compute in Hr. discriminate. }
  split; [exact H1 |]. split; [exact H2 |].
  exact (unstorable_birth_is_db_error decimal_rendering sample_secret decimal_text
           (Some sample_birth_big_gen) sample_env sample_world H1 H2).
Defined.

(** A number beyond 2^53 is signed and stored as the runtime renders it:
    2^60 goes out as 1152921504606847000 and the database stores that. *)
Example sample_birth_big_ts_stored :
  let r := birth shortest_rendering sample_secret decimal_text (Some sample_birth_big_ts)
             sample_env sample_world in
  signed_string shortest_rendering sample_secret decimal_text Birth sample_birth_big_ts
  = "1700000000|C1|1152921504606847000|P1|P2|3|2|H1|OwnerA|s3cret"
  /\ fst r = Val success
  /\ map births.cert_ts (rows (births_tbl (db (snd r)))) = [Some 1152921504606847000].
Proof. vm_compute. repeat split; reflexivity. Qed.

(** A byte 0 in a text field of the row, in the body, or in the queried
    identifier makes the database refuse the statement: the kit is not
    stored; the note leaves the certificate stored without audit row; the
    query is answered "db error". *)
Example sample_birth_nul_kit_refused :
  birth decimal_rendering sample_secret decimal_text (Some sample_birth_nul_kit)
    sample_env sample_world
  = (Val (bad "db error"),
     mkWorld (db sample_world) 2
       [birth_insert decimal_text sample_birth_nul_kit 1700000010]).
Proof. vm_compute. reflexivity. Qed.

Example sample_birth_nul_note_half_stored :
  let r := birth decimal_rendering sample_secret decimal_text (Some sample_birth_nul_note)
             sample_env sample_world in
  fst r = Val (bad "db error")
  /\ map births.cert_id (rows (births_tbl (db (snd r)))) = [Some "C1"]
  /\ rows (audit_tbl (db (snd r))) = [].
Proof. vm_compute. repeat split; reflexivity. Qed.

Example sample_verify_nul_refused :
  passes_gate decimal_rendering sample_secret decimal_text Verify sample_verify_nul
    sample_env sample_after_birth
  /\ ~ lookup_binds decimal_rendering sample_verify_nul
  /\ fst (verify decimal_rendering sample_secret decimal_text (Some sample_verify_nul)
            sample_env sample_after_birth)
     = Val (bad "db error").
Proof.
  split; [split; [apply freshb_spec |]; vm_compute; reflexivity |].
  split; [intros [c Hc]; vm_compute in Hc; discriminate | vm_compute; reflexivity].
Qed.

Lemma verify_without_identifier_witness :
  passes_gate decimal_rendering sample_secret decimal_text Verify sample_verify_no_id
    sample_env sample_after_anonymous
  /\ reachable sample_env sample_after_anonymous
  /\ (sample_verify_no_id.["cert_id"] = VUndefined
      \/ sample_verify_no_id.["cert_id"] = VNull)
  /\ map births.cert_id (rows (births_tbl (db sample_after_anonymous))) = [None]
  /\ fst (verify decimal_rendering sample_secret decimal_text (Some sample_verify_no_id)
            sample_env sample_after_anonymous)
     = Val not_found.
Proof.
  assert (H1 : passes_gate decimal_rendering sample_secret decimal_text Verify sample_verify_no_id
                 sample_env sample_after_anonymous)
    by (apply sample_gate; vm_compute; reflexivity).
  assert (H2 : reachable sample_env sample_after_anonymous) by reflexivity.
  assert (H3 : sample_verify_no_id.["cert_id"] = VUndefined
               \/ sample_verify_no_id.["cert_id"] = VNull)
    by (left; vm_compute; reflexivity).
  split; [exact H1 |]. split; [exact H2 |]. split; [exact H3 |].
  split; [vm_compute; reflexivity |].
  exact (verify_without_identifier decimal_rendering sample_secret decimal_text
           (Some sample_verify_no_id) sample_env sample_after_anonymous H1 H2 H3).
Defined.

(** The certificate stored by [sample_birth_num_hash]. *)
Lemma sample_num_hash_row :
  first_identified decimal_rendering sample_verify_num_hash.["cert_id"]
    (rows (births_tbl (db sample_after_num_hash)))
    (births.Row 1 None (Some "P1") (Some "P2") (Some 3) (Some 2)
       (Some "5") (Some "C2") (Some 1000) (Some "OwnerA") (Some 1700000010)).
Proof.
  exists "C2". split; [vm_compute; reflexivity |].
  exists [], []. split; [vm_compute; reflexivity |]. split; [reflexivity |].
  intros r Hin. now apply not_elem_of_nil in Hin.
Qed.

Lemma non_string_hash_never_matches_witness :
  passes_gate decimal_rendering sample_secret decimal_text Verify sample_verify_num_hash
    sample_env sample_after_num_hash
  /\ reachable sample_env sample_after_num_hash
  /\ lookup_binds decimal_rendering sample_verify_num_hash
  /\ sample_birth_num_hash.["dna_hash"] = sample_verify_num_hash.["dna_hash"]
  /\ truthy sample_verify_num_hash.["dna_hash"] = true
  /\ (forall s', sample_verify_num_hash.["dna_hash"] <> VStr s')
  /\ fst (verify decimal_rendering sample_secret decimal_text (Some sample_verify_num_hash)
            sample_env sample_after_num_hash)
     = Val dna_mismatch.
Proof.
  assert (H1 : passes_gate decimal_rendering sample_secret decimal_text Verify sample_verify_num_hash
                 sample_env sample_after_num_hash)
    by (apply sample_gate; vm_compute; reflexivity).
  assert (H2 : reachable sample_env sample_after_num_hash) by reflexivity.
  assert (Hb : lookup_binds decimal_rendering sample_verify_num_hash)
    by (eexists; vm_compute; reflexivity).
  assert (H3 : truthy sample_verify_num_hash.["dna_hash"] = true)
    by (vm_compute; reflexivity).
  assert (H4 : forall s', sample_verify_num_hash.["dna_hash"] <> VStr s')
    by (intros s' H; vm_compute in H; discriminate).
  split; [exact H1 |]. split; [exact H2 |]. split; [exact Hb |].
  split; [vm_compute; reflexivity |].
  split; [exact H3 |]. split; [exact H4 |].
  refine (non_string_hash_never_matches decimal_rendering sample_secret decimal_text
            (Some sample_verify_num_hash) sample_env sample_after_num_hash
            _ "5" H1 H2 Hb sample_num_hash_row eq_refl _ H3 H4).
  discriminate.
Defined.


Lemma delimiter_moves_between_fields_witness :
  request_ts decimal_text sample_transfer_left
  = request_ts decimal_text sample_transfer_right
  /\ field_tuple Transfer sample_transfer_left
     = [] ++ VStr ("K1" +:+ "|" +:+ "OwnerA") :: VStr "OwnerB" :: [VStr "OwnerC"]
  /\ field_tuple Transfer sample_transfer_right
     = [] ++ VStr "K1" :: VStr ("OwnerA" +:+ "|" +:+ "OwnerB") :: [VStr "OwnerC"]
  /\ signed_string decimal_rendering sample_secret decimal_text Transfer sample_transfer_left
     = signed_string decimal_rendering sample_secret decimal_text Transfer sample_transfer_right
  /\ expected_sig decimal_rendering sample_secret decimal_text Transfer sample_transfer_left
     = expected_sig decimal_rendering sample_secret decimal_text Transfer sample_transfer_right
  /\ verifySig decimal_rendering sample_secret (request_ts decimal_text sample_transfer_left)
       (join decimal_rendering "|" (field_tuple Transfer sample_transfer_left))
       "bca106fbe7744761e6cf808fa6013bc4"
     = verifySig decimal_rendering sample_secret (request_ts decimal_text sample_transfer_right)
         (join decimal_rendering "|" (field_tuple Transfer sample_transfer_right))
         "bca106fbe7744761e6cf808fa6013bc4".
Proof.
  assert (H0 : request_ts decimal_text sample_transfer_left
               = request_ts decimal_text sample_transfer_right)
    by (vm_compute; reflexivity).
  assert (H1 : field_tuple Transfer sample_transfer_left
               = [] ++ VStr ("K1" +:+ "|" +:+ "OwnerA") :: VStr "OwnerB"
                         :: [VStr "OwnerC"]) by (vm_compute; reflexivity).
  assert (H2 : field_tuple Transfer sample_transfer_right
               = [] ++ VStr "K1" :: VStr ("OwnerA" +:+ "|" +:+ "OwnerB")
                         :: [VStr "OwnerC"]) by (vm_compute; reflexivity).
  split; [exact H0 |]. split; [exact H1 |]. split; [exact H2 |].
  exact (delimiter_moves_between_fields decimal_rendering sample_secret decimal_text Transfer
           sample_transfer_left sample_transfer_right [] [VStr "OwnerC"]
           "K1" "OwnerA" "OwnerB" "bca106fbe7744761e6cf808fa6013bc4" H0 H1 H2).
Defined.

(** Both transfers are accepted under the one signature, and they record
    different subjects and previous owners. *)
Example sample_transfers_left_right :
  fst (transfer decimal_rendering sample_secret decimal_text (Some sample_transfer_left)
         sample_env sample_world) = Val success
  /\ fst (transfer decimal_rendering sample_secret decimal_text (Some sample_transfer_right)
            sample_env sample_world) = Val success
  /\ map (fun r => (transfers.sid r, transfers.from_owner r))
       (rows (transfers_tbl (db (snd (transfer decimal_rendering sample_secret decimal_text
                                         (Some sample_transfer_left)
                                         sample_env sample_world)))))
     = [(Some "K1|OwnerA", Some "OwnerB")]
  /\ map (fun r => (transfers.sid r, transfers.from_owner r))
       (rows (transfers_tbl (db (snd (transfer decimal_rendering sample_secret decimal_text
                                         (Some sample_transfer_right)
                                         sample_env sample_world)))))
     = [(Some "K1", Some "OwnerA|OwnerB")].
Proof. vm_compute. repeat split; reflexivity. Qed.

Lemma unsigned_fields_are_free_witness :
  ("kit_sid" ∉ "ts" :: "sig" :: signed_fields Birth)
  /\ request_ts decimal_text sample_birth_kit = request_ts decimal_text sample_birth
  /\ supplied_sig decimal_rendering sample_birth_kit = supplied_sig decimal_rendering sample_birth
  /\ signed_string decimal_rendering sample_secret decimal_text Birth sample_birth_kit
     = signed_string decimal_rendering sample_secret decimal_text Birth sample_birth
  /\ (passes_gate decimal_rendering sample_secret decimal_text Birth sample_birth_kit
        sample_env sample_world
      <-> passes_gate decimal_rendering sample_secret decimal_text Birth sample_birth
            sample_env sample_world).
Proof.
  assert (H : "kit_sid" ∉ "ts" :: "sig" :: signed_fields Birth).
  { intros Hin. repeat (apply elem_of_cons in Hin as [Hin | Hin]; [discriminate |]).
    now apply not_elem_of_nil in Hin. }
  split; [exact H |].
  exact (unsigned_fields_are_free decimal_rendering sample_secret decimal_text Birth sample_birth
           "kit_sid" (VStr "KitX") sample_env sample_world H).
Defined.

(** Under the signature of the sample birth, a kit of the sender's choice
    is stored. *)
Example sample_birth_kit_stored :
  fst (birth decimal_rendering sample_secret decimal_text (Some sample_birth_kit)
         sample_env sample_world) = Val success
  /\ map births.kit_sid
       (rows (births_tbl (db (snd (birth decimal_rendering sample_secret decimal_text
                                     (Some sample_birth_kit)
                                     sample_env sample_world)))))
     = [Some "KitX"]
  /\ map births.kit_sid (rows (births_tbl (db sample_after_birth))) = [None].
Proof. vm_compute. repeat split; reflexivity. Qed.

Lemma transfer_keeps_caller_timestamp_witness :
  transfer decimal_rendering sample_secret decimal_text (Some sample_transfer) sample_env sample_world
  = (Val success, sample_after_transfer)
  /\ exists t ts ats id id',
       request_ts decimal_text sample_transfer = Int t
       /\ Z.abs (server_time sample_env sample_world - t) <= 300
       /\ pg_int decimal_rendering 64 (Int t) = Some ts
       /\ (Z.abs t <= 2 ^ 53 -> ts = t)
       /\ rows (transfers_tbl (db sample_after_transfer))
          = rows (transfers_tbl (db sample_world))
            ++ [transfers.Row id
                  (pg_text decimal_rendering (sample_transfer.["sid"] || VNull)%js)
                  (pg_text decimal_rendering (sample_transfer.["from_owner"] || VNull)%js)
                  (pg_text decimal_rendering (sample_transfer.["to_owner"] || VNull)%js)
                  (Some ts)]
       /\ pg_int decimal_rendering 64
            (Int (Date_now sample_env (S (ticks sample_world)) / 1000)) = Some ats
       /\ (Z.abs (Date_now sample_env (S (ticks sample_world)) / 1000) <= 2 ^ 53 ->
           ats = Date_now sample_env (S (ticks sample_world)) / 1000)
       /\ rows (audit_tbl (db sample_after_transfer))
          = rows (audit_tbl (db sample_world))
            ++ [audit.Row id' (Some "transfer") (Some sample_transfer) (Some ats)].
Proof.
  assert (H : transfer decimal_rendering sample_secret decimal_text (Some sample_transfer)
                sample_env sample_world
              = (Val success, sample_after_transfer)) by (vm_compute; reflexivity).
  split; [exact H |].
  exact (transfer_keeps_caller_timestamp decimal_rendering sample_secret decimal_text
           (Some sample_transfer) sample_env sample_world sample_after_transfer H).
Defined.

(** The sample transfer is stored under the caller's 1700000000 and
    audited under the server's 1700000010. *)
Example sample_transfer_stamps :
  map transfers.ts (rows (transfers_tbl (db sample_after_transfer)))
  = [Some 1700000000]
  /\ map audit.ts (rows (audit_tbl (db sample_after_transfer))) = [Some 1700000010].
Proof. vm_compute. split; reflexivity. Qed.

(** The liveness probe answers without clock or storage; the server
    refuses to start without a secret. *)
Example health_answers (e : Env) (w : World) :
  health e w = (Val (res_json (Reply true None None)), w).
Proof. reflexivity. Qed.

Example load_secret_refuses_empty :
  load_secret None = Thrown /\ load_secret (Some "") = Thrown
  /\ load_secret (Some "s3cret") = Val "s3cret".
Proof. repeat split; reflexivity. Qed.

(** ** What a refused request learns *)

Section Refusals.

Variable NumberToString : Rendering.
Variable API_SECRET : string.
Variable StringToNumber : string -> num.

Local Abbreviation request_ts := (request_ts StringToNumber).
Local Abbreviation supplied_sig := (supplied_sig NumberToString).
Local Abbreviation expected_sig := (expected_sig NumberToString API_SECRET StringToNumber).
Local Abbreviation passes_gate := (passes_gate NumberToString API_SECRET StringToNumber).
Local Abbreviation route := (route NumberToString API_SECRET StringToNumber).

(** X19.  A request that does not pass the gate is answered "stale ts" or
    "bad sig", and that answer is the same whatever the database holds and
    whatever was sent to it before: without a valid signature nothing can
    be learnt about the ledger, not even whether a certificate exists. *)
Theorem refusals_reveal_nothing
    (op : operation) (req : option body) (e : Env) (w : World)
    (d : Db) (sent : list query) :
  ~ passes_gate op (default ∅ req) e w ->
  (fst (route op req e w) = Val (bad "stale ts")
   \/ fst (route op req e w) = Val (bad "bad sig"))
  /\ fst (route op req e (mkWorld d (ticks w) sent)) = fst (route op req e w).
Proof.
  intros Hno.
  destruct (freshb (server_time e w) (request_ts (default ∅ req))) eqn:Hf.
  - assert (Hs : supplied_sig (default ∅ req) <> expected_sig op (default ∅ req)).
    { intros Hs. apply Hno. split; [now apply freshb_spec | assumption]. }
    rewrite (route_bad_sig NumberToString API_SECRET StringToNumber op req e w) by assumption.
    rewrite (route_bad_sig NumberToString API_SECRET StringToNumber op req e (mkWorld d (ticks w) sent))
      by assumption.
    split; [now right | reflexivity].
  - rewrite (route_stale NumberToString API_SECRET StringToNumber op req e w) by assumption.
    rewrite (route_stale NumberToString API_SECRET StringToNumber op req e (mkWorld d (ticks w) sent))
      by assumption.
    split; [now left | reflexivity].
Qed.

End Refusals.

Lemma refusals_reveal_nothing_witness :
  ~ passes_gate decimal_rendering sample_secret decimal_text Verify sample_verify_forged
      sample_env sample_world
  /\ (fst (route decimal_rendering sample_secret decimal_text Verify (Some sample_verify_forged)
             sample_env sample_world) = Val (bad "stale ts")
      \/ fst (route decimal_rendering sample_secret decimal_text Verify (Some sample_verify_forged)
                sample_env sample_world) = Val (bad "bad sig"))
  /\ fst (route decimal_rendering sample_secret decimal_text Verify (Some sample_verify_forged)
            sample_env
            (mkWorld (db sample_after_birth) (ticks sample_world)
               (issued sample_after_birth)))
     = fst (route decimal_rendering sample_secret decimal_text Verify (Some sample_verify_forged)
              sample_env sample_world).
Proof.
  assert (H : ~ passes_gate decimal_rendering sample_secret decimal_text Verify sample_verify_forged
                  sample_env sample_world).
  { intros [_ Hs]. vm_compute in Hs. discriminate. }
  split; [exact H |].
  exact (refusals_reveal_nothing decimal_rendering sample_secret decimal_text Verify
           (Some sample_verify_forged) sample_env sample_world
           (db sample_after_birth) (issued sample_after_birth) H).
Defined.
